(** * peeker: host metrics as console text and as a two-line status bar

    A shallow embedding of the three [package main] programs of the
    repository:

    - [Console]   : [main.go], the plain console printer;
    - [Bar]       : the status bar whose cells are built by the
                    [Display*] helpers and whose [terminalWidth] is a
                    package-level variable;
    - [BarInline] : the status bar whose [Render] method builds every
                    cell itself and asks the terminal for its size.

    The programs are glue around outside libraries.  gopsutil (the
    metrics provider) and the terminal are part of the [World] the
    programs run in; lipgloss and [cases.Title] are the operations of the
    class [lipgloss.Renderer]; [strconv] and [fmt] are modelled by the
    functions of the module [Go].  A Go pointer is an [option], reading
    through a nil pointer panics, and a program is a computation in the
    monad [IO] of worlds and panics. *)

From Stdlib Require Import ZArith List String Ascii Lia Bool.
From Stdlib Require Import DecimalString DecimalN DecimalZ.
From Stdlib Require Import SpecFloat.
Import ListNotations.

Local Open Scope string_scope.
Local Open Scope Z_scope.

(* ===================================================================== *)
(** * The Go runtime and standard library, as far as the programs use it *)
(* ===================================================================== *)

Module Go.

(** ** Machine integers *)

(** [uint64]: a [Z] in [0, 2^64); arithmetic wraps around. *)
Definition uint64_modulus : Z := 2 ^ 64.

Definition in_uint64 (x : Z) : Prop := 0 <= x < uint64_modulus.

Definition wrap_uint64 (x : Z) : Z := x mod uint64_modulus.

Definition uint64_mul (a b : Z) : Z := wrap_uint64 (a * b).
Definition uint64_sub (a b : Z) : Z := wrap_uint64 (a - b).

(** Unsigned division; the divisors of the programs are non-zero
    constants, so the division-by-zero panic cannot happen. *)
Definition uint64_div (a b : Z) : Z := a / b.

(** [int]: 64-bit two's complement. *)
Definition int_min : Z := - 2 ^ 63.
Definition int_max : Z := 2 ^ 63 - 1.

Definition in_int (x : Z) : Prop := int_min <= x <= int_max.

Definition wrap_int (x : Z) : Z := (x + 2 ^ 63) mod 2 ^ 64 - 2 ^ 63.

Definition int_add (a b : Z) : Z := wrap_int (a + b).
Definition int_sub (a b : Z) : Z := wrap_int (a - b).
Definition int_div (a b : Z) : Z := wrap_int (Z.quot a b).

(** ** Strings *)

Definition newline : string := String (ascii_of_nat 10) "".
Definition tab : string := String (ascii_of_nat 9) "".

Fixpoint repeat_string (s : string) (n : nat) : string :=
  match n with
  | O => ""
  | S k => s ++ repeat_string s k
  end.

(** Padding on the left with spaces up to a minimal width, as [fmt] does
    for a verb with a width and no flag. *)
Definition pad_left (width : nat) (s : string) : string :=
  repeat_string " " (width - String.length s) ++ s.

(** ** strconv *)

(** [strconv.FormatUint(n, 10)]. *)
Definition FormatUint (n : Z) : string :=
  NilZero.string_of_uint (N.to_uint (Z.to_N n)).

(** [strconv.Itoa(i)]. *)
Definition Itoa (i : Z) : string :=
  NilZero.string_of_int (Z.to_int i).

(** [float64]: the IEEE 754 binary64 datum, decoded.  [S754_finite s m e]
    is the number [(-1)^s * m * 2^e]. *)
Definition float64 : Type := spec_float.

Definition float64_zero : float64 := S754_zero false.

(** A value a [float64] variable can hold. *)
Definition is_float64 (f : float64) : bool := valid_binary 53 1024 f.

(** The integer nearest to [num / den], ties going to the even one
    ([den] positive). *)
Definition round_half_even (num den : Z) : Z :=
  let q := num / den in
  let r := num mod den in
  if 2 * r <? den then q
  else if den <? 2 * r then q + 1
  else if Z.even q then q else q + 1.

(** [|f| * 10^prec] as a fraction, for a finite non-zero [f]. *)
Definition scaled_fraction (m : positive) (e : Z) (prec : nat) : Z * Z :=
  if 0 <=? e
  then (Z.pos m * 2 ^ e * 10 ^ Z.of_nat prec, 1)
  else (Z.pos m * 10 ^ Z.of_nat prec, 2 ^ (- e)).

(** [|f|] rounded to [prec] decimals, counted in units of [10^-prec]:
    the decimal conversion of [strconv] is exact and rounds the digits
    it drops to nearest, ties to even. *)
Definition scaled_round (m : positive) (e : Z) (prec : nat) : Z :=
  let (num, den) := scaled_fraction m e prec in
  round_half_even num den.

Definition zero_pad (width : nat) (s : string) : string :=
  repeat_string "0" (width - String.length s) ++ s.

(** The layout of the [%f] form: integer digits, then, when [prec] is
    positive, a point and exactly [prec] digits. *)
Definition fixed_text (neg : bool) (q : Z) (prec : nat) : string :=
  (if neg then "-" else "") ++
  FormatUint (q / 10 ^ Z.of_nat prec) ++
  match prec with
  | O => ""
  | S _ => "." ++ zero_pad prec (FormatUint (q mod 10 ^ Z.of_nat prec))
  end.

(** [strconv.FormatFloat(f, 'f', prec, 64)]. *)
Definition FormatFloat (f : float64) (prec : nat) : string :=
  match f with
  | S754_nan => "NaN"
  | S754_infinity false => "+Inf"
  | S754_infinity true => "-Inf"
  | S754_zero s => fixed_text s 0 prec
  | S754_finite s m e => fixed_text s (scaled_round m e prec) prec
  end.

(** ** fmt *)

(** The verb [%2.f]: no decimals, at least two columns. *)
Definition Sprintf_2_f (f : float64) : string :=
  pad_left 2 (FormatFloat f 0).

(** The verb [%d] on a [uint64]. *)
Definition Sprintf_d (n : Z) : string := FormatUint n.

(** [fmt.Sprintln]: the operands separated by spaces, and a newline. *)
Fixpoint join_spaces (l : list string) : string :=
  match l with
  | [] => ""
  | [s] => s
  | s :: rest => s ++ " " ++ join_spaces rest
  end.

Definition Sprintln (l : list string) : string :=
  join_spaces l ++ newline.

(** ** Slices *)

(** [s[:i]] and [s[i:]] for [0 <= i <= len(s)]. *)
Definition slice_to {A} (s : list A) (i : Z) : list A := firstn (Z.to_nat i) s.
Definition slice_from {A} (s : list A) (i : Z) : list A := skipn (Z.to_nat i) s.

Definition len {A} (s : list A) : Z := Z.of_nat (List.length s).

End Go.

Import Go.

(* ===================================================================== *)
(** * gopsutil: the records of the metrics provider                      *)
(* ===================================================================== *)

Definition error : Type := string.

Module cpu.
Record InfoStat : Type := {
  ModelName : string;
  Family : string;
  Mhz : float64
}.
End cpu.

Module disk.
Record UsageStat : Type := {
  Total : Z;
  Free : Z;
  Used : Z;
  UsedPercent : float64
}.
End disk.

Module host.
Record InfoStat : Type := {
  Hostname : string;
  Platform : string;
  PlatformVersion : string;
  KernelArch : string
}.
End host.

Module mem.
Record VirtualMemoryStat : Type := {
  Total : Z;
  Available : Z;
  Used : Z;
  UsedPercent : float64
}.
End mem.

(** What a provider query answers: a record, or an opaque error. *)
Inductive answer (A : Type) : Type :=
| Success (a : A)
| Failure (e : error).
Arguments Success {A} a.
Arguments Failure {A} e.

(* ===================================================================== *)
(** * The world a program runs in, and the monad of its effects          *)
(* ===================================================================== *)

Record World : Type := {
  host_Info : answer host.InfoStat;
  cpu_Info : answer (list cpu.InfoStat);
  mem_VirtualMemory : answer mem.VirtualMemoryStat;
  disk_Usage : string -> answer disk.UsageStat;
  cpu_Percent : answer (list float64);
  (** the column count [term.GetSize] reports for standard output *)
  term_columns : Z;
  (** everything written to standard output so far *)
  stdout : string
}.

Definition write (s : string) (w : World) : World :=
  {| host_Info := host_Info w;
     cpu_Info := cpu_Info w;
     mem_VirtualMemory := mem_VirtualMemory w;
     disk_Usage := disk_Usage w;
     cpu_Percent := cpu_Percent w;
     term_columns := term_columns w;
     stdout := stdout w ++ s |}.

(** The terminal is resized (by its user, not by the program). *)
Definition resize (columns : Z) (w : World) : World :=
  {| host_Info := host_Info w;
     cpu_Info := cpu_Info w;
     mem_VirtualMemory := mem_VirtualMemory w;
     disk_Usage := disk_Usage w;
     cpu_Percent := cpu_Percent w;
     term_columns := columns;
     stdout := stdout w |}.

(** A computation returns a value, or the goroutine panics; either way
    the world it leaves behind is known. *)
Inductive Outcome (A : Type) : Type :=
| Returned (a : A) (w : World)
| Panicked (msg : string) (w : World).
Arguments Returned {A} a w.
Arguments Panicked {A} msg w.

Definition IO (A : Type) : Type := World -> Outcome A.

Definition ret {A} (a : A) : IO A := fun w => Returned a w.

Definition bind {A B} (c : IO A) (k : A -> IO B) : IO B :=
  fun w =>
    match c w with
    | Returned a w' => k a w'
    | Panicked msg w' => Panicked msg w'
    end.

Declare Scope io_scope.
Delimit Scope io_scope with io.
Notation "x <- c ;; k" := (bind c (fun x => k))
  (at level 61, c at next level, right associativity) : io_scope.
Notation "' p <- c ;; k" := (bind c (fun x => let 'p := x in k))
  (at level 61, p pattern, c at next level, right associativity) : io_scope.
Notation "c ;; k" := (bind c (fun _ => k))
  (at level 61, right associativity) : io_scope.
Local Open Scope io_scope.

Definition panic {A} (msg : string) : IO A := fun w => Panicked msg w.

Definition nil_dereference : string :=
  "runtime error: invalid memory address or nil pointer dereference".

(** A pointer is [None] (nil) or [Some] record.  [load p f] is the field
    read [p.f]. *)
Definition is_nil {A} (p : option A) : bool :=
  match p with None => true | Some _ => false end.

Definition load {A B} (p : option A) (f : A -> B) : IO B :=
  match p with
  | Some a => ret (f a)
  | None => panic nil_dereference
  end.

(** [fmt.Println] of string operands, and [fmt.Printf]/[fmt.Println] of a
    text already formatted. *)
Definition Println (operands : list string) : IO unit :=
  fun w => Returned tt (write (Sprintln operands) w).

Definition Print (text : string) : IO unit :=
  fun w => Returned tt (write text w).

(** The provider calls, with Go's pair of results. *)
Definition pair_of_answer {A} (a : answer A) : option A * option error :=
  match a with
  | Success v => (Some v, None)
  | Failure e => (None, Some e)
  end.

Definition slice_of_answer {A} (a : answer (list A)) : list A * option error :=
  match a with
  | Success v => (v, None)
  | Failure e => ([], Some e)
  end.

Definition host_Info_call : IO (option host.InfoStat * option error) :=
  fun w => Returned (pair_of_answer (host_Info w)) w.

Definition cpu_Info_call : IO (list cpu.InfoStat * option error) :=
  fun w => Returned (slice_of_answer (cpu_Info w)) w.

Definition mem_VirtualMemory_call
  : IO (option mem.VirtualMemoryStat * option error) :=
  fun w => Returned (pair_of_answer (mem_VirtualMemory w)) w.

Definition disk_Usage_call (path : string)
  : IO (option disk.UsageStat * option error) :=
  fun w => Returned (pair_of_answer (disk_Usage w path)) w.

Definition cpu_Percent_call : IO (list float64 * option error) :=
  fun w => Returned (slice_of_answer (cpu_Percent w)) w.

(** [term.GetSize(int(os.Stdout.Fd()))], first result. *)
Definition term_GetSize : IO Z :=
  fun w => Returned (term_columns w) w.

(** [for idx, x := range xs { body }], [idx] counting from [from]. *)
Fixpoint range_from {A} (from : Z) (xs : list A) (body : Z -> A -> IO unit)
  : IO unit :=
  match xs with
  | [] => ret tt
  | x :: rest => body from x ;; range_from (int_add from 1) rest body
  end.

Definition range {A} (xs : list A) (body : Z -> A -> IO unit) : IO unit :=
  range_from 0 xs body.

(* ===================================================================== *)
(** * Unit conversion                                                    *)
(* ===================================================================== *)

(** Each of the three files declares the same two constants. *)
Definition megabyteDiv : Z := uint64_mul 1024 1024.
Definition gigabyteDiv : Z := uint64_mul megabyteDiv 1024.

(* ===================================================================== *)
(** * The provider queries (the same five functions in all three files)  *)
(* ===================================================================== *)

(** GetHostInformation fetches information for the host. *)
Definition GetHostInformation : IO (option host.InfoStat * option error) :=
  '(hostStat, err) <- host_Info_call ;;
  if negb (is_nil err) then ret (None, err) else ret (hostStat, None).

(** GetCPUStat returns the CPU inventory. *)
Definition GetCPUStat : IO (list cpu.InfoStat * option error) :=
  '(cpuStat, err) <- cpu_Info_call ;;
  if negb (is_nil err) then ret ([], err) else ret (cpuStat, None).

(** GetHostMemory fetches information about the host's memory. *)
Definition GetHostMemory : IO (option mem.VirtualMemoryStat * option error) :=
  '(vmStat, err) <- mem_VirtualMemory_call ;;
  if negb (is_nil err) then ret (None, err) else ret (vmStat, None).

(** GetDiskInformation returns the file system usage. *)
Definition GetDiskInformation : IO (option disk.UsageStat * option error) :=
  '(diskStat, err) <- disk_Usage_call "/" ;;
  if negb (is_nil err) then ret (None, err) else ret (diskStat, None).

(** GetCPUPercentage calculates the percentage of cpu used per CPU. *)
Definition GetCPUPercentage : IO (list float64 * option error) :=
  '(percentage, err) <- cpu_Percent_call ;;
  if negb (is_nil err) then ret ([], err) else ret (percentage, None).

(* ===================================================================== *)
(** * main.go: the console printer                                       *)
(* ===================================================================== *)

Module Console.

(** DisplayHostMemory displays information about the host's memory. *)
Definition DisplayHostMemory (vmStat : option mem.VirtualMemoryStat) : IO unit :=
  total <- load vmStat mem.Total ;;
  Println ["Total memory:"; FormatUint (uint64_div total megabyteDiv); "MB"] ;;
  available <- load vmStat mem.Available ;;
  Println ["Free memory:"; FormatUint (uint64_div available megabyteDiv); "MB"] ;;
  usedPercent <- load vmStat mem.UsedPercent ;;
  Println ["Percentage used memory:"; FormatFloat usedPercent 2; "%"].

(** DisplayHostInformation displays information about a host. *)
Definition DisplayHostInformation (hostStat : option host.InfoStat) : IO unit :=
  hostname <- load hostStat host.Hostname ;;
  Print ("Hostname: " ++ hostname ++ newline) ;;
  platform <- load hostStat host.Platform ;;
  platformVersion <- load hostStat host.PlatformVersion ;;
  kernelArch <- load hostStat host.KernelArch ;;
  Print ("Operating System: " ++ platform ++ " " ++ platformVersion ++
         " (" ++ kernelArch ++ ")" ++ newline).

(** DisplayDiskInformation displays disk information on the console. *)
Definition DisplayDiskInformation (diskStat : option disk.UsageStat) : IO unit :=
  total <- load diskStat disk.Total ;;
  Print ("Total disk space: " ++ FormatUint (uint64_div total gigabyteDiv) ++
         " GB" ++ newline) ;;
  used <- load diskStat disk.Used ;;
  Print ("Used disk space: " ++ FormatUint (uint64_div used gigabyteDiv) ++
         " GB" ++ newline) ;;
  free <- load diskStat disk.Free ;;
  Print ("Free disk space: " ++ FormatUint (uint64_div free gigabyteDiv) ++
         " GB" ++ newline) ;;
  usedPercent <- load diskStat disk.UsedPercent ;;
  Print ("Percentage disk space usage: " ++ FormatFloat usedPercent 2 ++
         " %" ++ newline).

(** The two halves [percentage[:len(percentage)/2]] and
    [percentage[len(percentage)/2:]]. *)
Definition firstCpus (percentage : list float64) : list float64 :=
  slice_to percentage (int_div (len percentage) 2).

Definition secondCpus (percentage : list float64) : list float64 :=
  slice_from percentage (int_div (len percentage) 2).

(** The line one iteration of either loop prints. *)
Definition core_line (index : Z) (cpupercent : float64) : string :=
  tab ++ "CPU [" ++ Itoa index ++ "]: " ++ FormatFloat cpupercent 2 ++
  " %" ++ newline.

(** DisplayCPUPercentage displays CPU usage percentage. *)
Definition DisplayCPUPercentage (percentage : list float64) : IO unit :=
  Println ["Cores:"] ;;
  range (firstCpus percentage)
    (fun idx cpupercent => Print (core_line idx cpupercent)) ;;
  let oftset := len (firstCpus percentage) in
  range (secondCpus percentage)
    (fun idx cpupercent => Print (core_line (int_add idx oftset) cpupercent)).

(** DisplayCPUStat displays the CPU information. *)
Definition DisplayCPUStat (cpuStat : list cpu.InfoStat) : IO unit :=
  match cpuStat with
  | [] => ret tt
  | first :: _ =>
      Print ("Model Name: " ++ cpu.ModelName first ++ " ") ;;
      Print ("Family: " ++ cpu.Family first ++ " ") ;;
      Print ("Speed: " ++ FormatFloat (cpu.Mhz first) 2 ++ " MHz" ++ newline)
  end.

Definition main : IO unit :=
  '(host, err) <- GetHostInformation ;;
  (if is_nil err then DisplayHostInformation host else ret tt) ;;
  '(stat, err) <- GetCPUStat ;;
  (if is_nil err then DisplayCPUStat stat else ret tt) ;;
  '(mem, err) <- GetHostMemory ;;
  (if is_nil err then DisplayHostMemory mem else ret tt) ;;
  '(disk, err) <- GetDiskInformation ;;
  (if is_nil err then DisplayDiskInformation disk else ret tt) ;;
  '(percentage, err) <- GetCPUPercentage ;;
  (if is_nil err then DisplayCPUPercentage percentage else ret tt).

End Console.

(* ===================================================================== *)
(** * lipgloss and x/text: the rendering capability                      *)
(* ===================================================================== *)

Module lipgloss.

Inductive Position : Type := Top | Left | Center | Right.

Inductive TerminalColor : Type :=
| Color (value : string)
| AdaptiveColor (Light Dark : string).

(** A style is the chain of builder calls that made it; what the calls
    mean is the renderer's business. *)
Inductive Style : Type :=
| NewStyle
| Style_Inherit (parent : Style) (s : Style)
| Style_Foreground (c : TerminalColor) (s : Style)
| Style_Background (c : TerminalColor) (s : Style)
| Style_Bold (b : bool) (s : Style)
| Style_Padding (sides : list Z) (s : Style)
| Style_MarginLeft (n : Z) (s : Style)
| Style_MarginRight (n : Z) (s : Style)
| Style_Align (p : Position) (s : Style)
| Style_Width (n : Z) (s : Style).

(** The operations the programs call and do not define:
    [Style.Render], [lipgloss.Width], the two joins, and
    [cases.Title(language.AmericanEnglish).String]. *)
Class Renderer : Type := {
  Style_Render : Style -> string -> string;
  Width : string -> Z;
  JoinHorizontal : Position -> list string -> string;
  JoinVertical : Position -> list string -> string;
  Title : string -> string
}.

(** The width a style was last given, if any. *)
Fixpoint width_given (s : Style) : option Z :=
  match s with
  | NewStyle => None
  | Style_Width n _ => Some n
  | Style_Inherit _ s' | Style_Foreground _ s' | Style_Background _ s'
  | Style_Bold _ s' | Style_Padding _ s' | Style_MarginLeft _ s'
  | Style_MarginRight _ s' | Style_Align _ s' => width_given s'
  end.

End lipgloss.

(** Method chains read left to right. *)
Notation "s |> m" := (m s) (at level 45, left associativity, only parsing).

(* ===================================================================== *)
(** * What the two status-bar files share                                *)
(* ===================================================================== *)

Module Styles.
Import lipgloss.

(** Base style used for the status bar. *)
Definition statusBarStyle : Style :=
  NewStyle
  |> Style_Foreground (AdaptiveColor "#FFFFFF" "#8CABFF")
  |> Style_Background (AdaptiveColor "#000000" "#512B81").

(** Style used for the disk information. *)
Definition diskStyle : Style :=
  NewStyle |> Style_Inherit statusBarStyle |> Style_Align Right
  |> Style_Padding [0; 1].

(** Style used for the memory information. *)
Definition memoryStyle : Style :=
  NewStyle |> Style_Inherit statusBarStyle |> Style_Align Left
  |> Style_Padding [0; 1].

(** Style used for the upper left corner of the status bar. *)
Definition highlightLeftStyle : Style :=
  NewStyle |> Style_Inherit statusBarStyle
  |> Style_Background (Color "#35155D") |> Style_Bold true
  |> Style_Padding [0; 1] |> Style_MarginRight 1.

(** Style used for the upper right corner of the status bar. *)
Definition highlightRightStyle : Style :=
  NewStyle |> Style_Inherit statusBarStyle
  |> Style_Background (Color "#35155D") |> Style_Bold true
  |> Style_Padding [0; 1] |> Style_MarginLeft 1.

(** Style used for generic text. *)
Definition generalTextStyle : Style :=
  NewStyle |> Style_Inherit statusBarStyle
  |> Style_Foreground (Color "#FFFFFF") |> Style_Bold true.

End Styles.

(** Struct used to represent a StatusBar. *)
Record StatusBar : Type := {
  cpu : list cpu.InfoStat;
  disk : option disk.UsageStat;
  host : option host.InfoStat;
  mem : option mem.VirtualMemoryStat
}.

(** New StatusBar with no features. *)
Definition NewStatusBar : StatusBar :=
  {| cpu := []; disk := None; host := None; mem := None |}.

(** New StatusBar with feature. *)
Definition WithHostInformation (sb : StatusBar) : IO StatusBar :=
  '(host', err) <- GetHostInformation ;;
  if is_nil err
  then ret {| cpu := cpu sb; disk := disk sb; host := host'; mem := mem sb |}
  else ret sb.

(** New StatusBar with CPU feature. *)
Definition WithCPUInformation (sb : StatusBar) : IO StatusBar :=
  '(cpu', err) <- GetCPUStat ;;
  if is_nil err
  then ret {| cpu := cpu'; disk := disk sb; host := host sb; mem := mem sb |}
  else ret sb.

(** New StatusBar with Memory feature. *)
Definition WithMemoryInformation (sb : StatusBar) : IO StatusBar :=
  '(mem', err) <- GetHostMemory ;;
  if is_nil err
  then ret {| cpu := cpu sb; disk := disk sb; host := host sb; mem := mem' |}
  else ret sb.

(** New StatusBar with Disk feature. *)
Definition WithDiskInformation (sb : StatusBar) : IO StatusBar :=
  '(disk', err) <- GetDiskInformation ;;
  if is_nil err
  then ret {| cpu := cpu sb; disk := disk'; host := host sb; mem := mem sb |}
  else ret sb.

(** The chain [NewStatusBar().WithHostInformation()...] of both [main]s. *)
Definition build : IO StatusBar :=
  sb <- WithHostInformation NewStatusBar ;;
  sb <- WithCPUInformation sb ;;
  sb <- WithMemoryInformation sb ;;
  WithDiskInformation sb.

(* ===================================================================== *)
(** * The status bar built by the Display helpers                        *)
(* ===================================================================== *)

Module Bar.
Import Styles.

(** The package-level variables that are not constants: they are set
    once, when the package is initialised, before [main] starts. *)
Record Package : Type := {
  (** The width of the visible terminal. *)
  terminalWidth : Z
}.

Definition package_init : IO Package :=
  width <- term_GetSize ;;
  ret {| terminalWidth := width |}.

Section WithRenderer.
Context {R : lipgloss.Renderer}.

(** DisplayHostMemory displays information about the host's memory. *)
Definition DisplayHostMemory (sb : StatusBar) (width : Z) : IO string :=
  '(memoryTotal, memoryInUse, memoryUsedPercentenge) <-
    (if negb (is_nil (mem sb)) then
       total <- load (mem sb) mem.Total ;;
       let memoryTotal := uint64_div total megabyteDiv in
       available <- load (mem sb) mem.Available ;;
       let memoryAvailable := uint64_div available megabyteDiv in
       let memoryInUse := uint64_sub memoryTotal memoryAvailable in
       usedPercent <- load (mem sb) mem.UsedPercent ;;
       ret (memoryTotal, memoryInUse, usedPercent)
     else ret (0, 0, float64_zero)) ;;
  let memoryInformation :=
    "Memory: " ++ Sprintf_d memoryInUse ++ " of " ++ Sprintf_d memoryTotal ++
    " MB used (" ++ Sprintf_2_f memoryUsedPercentenge ++ "%)" in
  ret (lipgloss.Style_Render (memoryStyle |> lipgloss.Style_Width width)
         memoryInformation).

(** DisplayHostInformation displays information about a host. *)
Definition DisplayHostInformation (sb : StatusBar) (width : Z) : IO string :=
  '(hostName, hostArch) <-
    (if negb (is_nil (host sb)) then
       hostName <- load (host sb) host.Hostname ;;
       hostArch <- load (host sb) host.KernelArch ;;
       ret (hostName, hostArch)
     else ret ("", "")) ;;
  let hostInformation := hostName ++ " " ++ hostArch in
  ret (lipgloss.Style_Render
         (generalTextStyle |> lipgloss.Style_Width width
          |> lipgloss.Style_Align lipgloss.Center)
         hostInformation).

(** DisplayPlatformInformation displays information about a host. *)
Definition DisplayPlatformInformation (sb : StatusBar) : IO string :=
  '(platformName, platformVersion) <-
    (if negb (is_nil (host sb)) then
       platform <- load (host sb) host.Platform ;;
       let platformName := lipgloss.Title platform in
       platformVersion <- load (host sb) host.PlatformVersion ;;
       ret (platformName, platformVersion)
     else ret ("", "")) ;;
  let platformInformation := platformName ++ " " ++ platformVersion in
  ret (lipgloss.Style_Render highlightLeftStyle platformInformation).

(** DisplayDiskInformation displays disk information on the console. *)
Definition DisplayDiskInformation (sb : StatusBar) : IO string :=
  '(diskTotal, diskUsed, diskUsedPercent) <-
    (if negb (is_nil (disk sb)) then
       total <- load (disk sb) disk.Total ;;
       let diskTotal := uint64_div total gigabyteDiv in
       used <- load (disk sb) disk.Used ;;
       let diskUsed := uint64_div used gigabyteDiv in
       usedPercent <- load (disk sb) disk.UsedPercent ;;
       ret (diskTotal, diskUsed, usedPercent)
     else ret (0, 0, float64_zero)) ;;
  let diskInformation :=
    "Disk: " ++ Sprintf_d diskUsed ++ " of " ++ Sprintf_d diskTotal ++
    " GB used (" ++ Sprintf_2_f diskUsedPercent ++ "%)" in
  ret (lipgloss.Style_Render
         (diskStyle |> lipgloss.Style_Align lipgloss.Right) diskInformation).

(** DisplayCPUInformation displays the CPU information. *)
Definition DisplayCPUInformation (sb : StatusBar) : IO string :=
  let cpuInformation :=
    match cpu sb with
    | [] => ""
    | first :: _ =>
        cpu.ModelName first ++ " " ++ FormatFloat (cpu.Mhz first) 2 ++ " MHz"
    end in
  ret (lipgloss.Style_Render highlightRightStyle cpuInformation).

(** Renders the StatusBar with all features. *)
Definition Render (pkg : Package) (sb : StatusBar) : IO unit :=
  let w := lipgloss.Width in
  platformCell <- DisplayPlatformInformation sb ;;
  cpuCell <- DisplayCPUInformation sb ;;
  hostCell <- DisplayHostInformation sb
    (int_sub (int_sub (terminalWidth pkg) (w platformCell)) (w cpuCell)) ;;
  diskCell <- DisplayDiskInformation sb ;;
  memoryCell <- DisplayHostMemory sb (int_sub (terminalWidth pkg) (w diskCell)) ;;
  let firstLine :=
    lipgloss.JoinHorizontal lipgloss.Top [platformCell; hostCell; cpuCell] in
  let secondLine :=
    lipgloss.JoinHorizontal lipgloss.Top [memoryCell; diskCell] in
  let bar := lipgloss.JoinVertical lipgloss.Top [firstLine; secondLine] in
  Println [bar].

Definition main (pkg : Package) : IO unit :=
  bar <- build ;;
  Render pkg bar.

(** A run of the program: the package is initialised, then [main] runs. *)
Definition program : IO unit :=
  pkg <- package_init ;;
  main pkg.

End WithRenderer.
End Bar.

(* ===================================================================== *)
(** * The status bar built inside Render                                 *)
(* ===================================================================== *)

Module BarInline.
Import Styles.

Section WithRenderer.
Context {R : lipgloss.Renderer}.

Definition Render (sb : StatusBar) : IO unit :=
  terminalWidth <- term_GetSize ;;
  let w := lipgloss.Width in
  (* Platform information *)
  platform <- load (host sb) host.Platform ;;
  let platformName := lipgloss.Title platform in
  platformVersion <- load (host sb) host.PlatformVersion ;;
  let platformInformation := platformName ++ " " ++ platformVersion in
  (* Host information *)
  hostName <- load (host sb) host.Hostname ;;
  hostArch <- load (host sb) host.KernelArch ;;
  let hostInformation := hostName ++ " " ++ hostArch in
  (* CPU information *)
  let cpuInformation :=
    match cpu sb with
    | [] => ""
    | first :: _ =>
        cpu.ModelName first ++ " " ++ FormatFloat (cpu.Mhz first) 2 ++ " MHz"
    end in
  let platformCell := lipgloss.Style_Render highlightLeftStyle platformInformation in
  let cpuCell := lipgloss.Style_Render highlightRightStyle cpuInformation in
  let hostVal :=
    lipgloss.Style_Render
      (generalTextStyle
       |> lipgloss.Style_Width
            (int_sub (int_sub terminalWidth (w platformCell)) (w cpuCell))
       |> lipgloss.Style_Align lipgloss.Center)
      hostInformation in
  let barLine1 :=
    lipgloss.JoinHorizontal lipgloss.Top [platformCell; hostVal; cpuCell] in
  (* Disk information *)
  total <- load (disk sb) disk.Total ;;
  let diskTotal := uint64_div total gigabyteDiv in
  used <- load (disk sb) disk.Used ;;
  let diskUsed := uint64_div used gigabyteDiv in
  diskUsedPercent <- load (disk sb) disk.UsedPercent ;;
  let diskInformation :=
    "Disk: " ++ Sprintf_d diskUsed ++ " of " ++ Sprintf_d diskTotal ++
    " used (" ++ Sprintf_2_f diskUsedPercent ++ " %)" in
  let diskCell :=
    lipgloss.Style_Render
      (diskStyle |> lipgloss.Style_Align lipgloss.Right) diskInformation in
  (* Memory information *)
  total <- load (mem sb) mem.Total ;;
  let memoryTotal := uint64_div total megabyteDiv in
  available <- load (mem sb) mem.Available ;;
  let memoryAvailable := uint64_div available megabyteDiv in
  let memoryInUse := uint64_sub memoryTotal memoryAvailable in
  memoryUsedPercentenge <- load (mem sb) mem.UsedPercent ;;
  let memoryInformation :=
    "Memory used: " ++ Sprintf_d memoryInUse ++ " of " ++
    Sprintf_d memoryTotal ++ " MB (" ++ Sprintf_2_f memoryUsedPercentenge ++
    "% used)" in
  let memoryCell :=
    lipgloss.Style_Render
      (memoryStyle
       |> lipgloss.Style_Width (int_sub terminalWidth (w diskCell)))
      memoryInformation in
  let barLine2 := lipgloss.JoinHorizontal lipgloss.Top [memoryCell; diskCell] in
  let bar := lipgloss.JoinVertical lipgloss.Top [barLine1; barLine2] in
  Println [bar].

Definition main : IO unit :=
  bar <- build ;;
  Render bar.

(** A run of the program: no package-level variable depends on the
    world, so the run is [main]. *)
Definition program : IO unit := main.

End WithRenderer.
End BarInline.

(* ===================================================================== *)
(** * A plain renderer                                                   *)
(* ===================================================================== *)

(** A renderer without colours: a cell is its text between the blanks of
    its padding and margins, as wide as its characters; joins
    concatenate.  It makes the programs run on concrete worlds. *)
Module Plain.
Import lipgloss.

Fixpoint blanks (s : Style) : Z :=
  match s with
  | NewStyle => 0
  | Style_Padding [_; horizontal] s' => 2 * horizontal + blanks s'
  | Style_MarginLeft n s' | Style_MarginRight n s' => n + blanks s'
  | Style_Inherit _ s' | Style_Foreground _ s' | Style_Background _ s'
  | Style_Bold _ s' | Style_Padding _ s' | Style_Align _ s'
  | Style_Width _ s' => blanks s'
  end.

Definition render (s : Style) (text : string) : string :=
  let inner := (String.length text + Z.to_nat (blanks s))%nat in
  let total :=
    match width_given s with
    | Some n => Nat.max (Z.to_nat n) inner
    | None => inner
    end in
  text ++ repeat_string " " (total - String.length text).

#[export] Instance renderer : Renderer := {|
  Style_Render := render;
  Width := fun s => Z.of_nat (String.length s);
  JoinHorizontal := fun _ cells => String.concat "" cells;
  JoinVertical := fun _ lines => String.concat newline lines;
  Title := fun s => s
|}.

End Plain.

(* ===================================================================== *)
(** * Vocabulary of the statements                                       *)
(* ===================================================================== *)

(** The [float64] nearest to the fraction [num / den] of two integers
    that are themselves [float64] values: what a decimal literal such as
    [87.456] denotes. *)
Definition float64_of_fraction (num den : Z) : float64 :=
  SFdiv 53 1024 (binary_normalize 53 1024 num 0 false)
                (binary_normalize 53 1024 den 0 false).

Definition float64_of_Z (n : Z) : float64 := binary_normalize 53 1024 n 0 false.

(** [q] is an integer nearest to [|x| * 10^prec]. *)
Definition nearest_scaled (x : float64) (prec : nat) (q : Z) : Prop :=
  match x with
  | S754_zero _ => q = 0
  | S754_finite _ m e =>
      let (num, den) := scaled_fraction m e prec in
      2 * Z.abs (q * den - num) <= den
  | _ => False
  end.

(** [|x| * 10^prec] with the decimals beyond [prec] cut off. *)
Definition truncated_scaled (x : float64) (prec : nat) : Z :=
  match x with
  | S754_finite _ m e => let (num, den) := scaled_fraction m e prec in num / den
  | _ => 0
  end.

Definition sign_bit (x : float64) : bool :=
  match x with
  | S754_zero s | S754_infinity s | S754_finite s _ _ => s
  | S754_nan => false
  end.

Definition is_finite (x : float64) : bool :=
  match x with
  | S754_zero _ | S754_finite _ _ _ => true
  | _ => false
  end.

Definition is_digit (c : ascii) : bool :=
  let n := nat_of_ascii c in (48 <=? n)%nat && (n <=? 57)%nat.

Fixpoint all_chars (p : ascii -> bool) (s : string) : bool :=
  match s with
  | EmptyString => true
  | String c rest => p c && all_chars p rest
  end.

(** What [FormatFloat] rounds a finite value to. *)
Definition rounded (x : float64) (prec : nat) : Z :=
  match x with
  | S754_finite _ m e => scaled_round m e prec
  | _ => 0
  end.

(** The check that the two decimals of [r] are two digits. *)
Definition two_decimals_ok (r : nat) : bool :=
  (String.length (zero_pad 2 (FormatUint (Z.of_nat r))) =? 2)%nat &&
  all_chars is_digit (zero_pad 2 (FormatUint (Z.of_nat r))).

(** The lines of a text that ends each line with a newline. *)
Fixpoint lines_from (current : string) (s : string) : list string :=
  match s with
  | EmptyString => match current with EmptyString => [] | _ => [current] end
  | String c rest =>
      if Ascii.eqb c (ascii_of_nat 10)
      then current :: lines_from "" rest
      else lines_from (current ++ String c "") rest
  end.

Definition lines (s : string) : list string := lines_from "" s.

Definition unlines (l : list string) : string :=
  fold_right (fun line rest => line ++ newline ++ rest) "" l.

Definition has_line (text line : string) : bool :=
  existsb (String.eqb line) (lines text).

(** A character other than the line feed, and a text without one. *)
Definition not_newline (c : ascii) : bool :=
  negb (Ascii.eqb c (ascii_of_nat 10)).

Definition one_line (s : string) : bool := all_chars not_newline s.

(** What a run leaves on standard output; [None] when it panicked. *)
Definition output {A} (c : IO A) (w : World) : option string :=
  match c w with
  | Returned _ w' => Some (stdout w')
  | Panicked _ _ => None
  end.

Definition returns {A} (c : IO A) (w : World) : Prop :=
  exists a w', c w = Returned a w'.

(** The terminal's user resizes it while the program runs. *)
Definition user_resizes (columns : Z) : IO unit :=
  fun w => Returned tt (resize columns w).

Module ConsoleText.

Definition host_lines (h : host.InfoStat) : string :=
  "Hostname: " ++ host.Hostname h ++ newline ++
  "Operating System: " ++ host.Platform h ++ " " ++ host.PlatformVersion h ++
  " (" ++ host.KernelArch h ++ ")" ++ newline.

Definition cpu_line (l : list cpu.InfoStat) : string :=
  match l with
  | [] => ""
  | c :: _ =>
      "Model Name: " ++ cpu.ModelName c ++ " " ++
      "Family: " ++ cpu.Family c ++ " " ++
      "Speed: " ++ FormatFloat (cpu.Mhz c) 2 ++ " MHz" ++ newline
  end.

Definition memory_lines (m : mem.VirtualMemoryStat) : string :=
  "Total memory: " ++ FormatUint (mem.Total m / 1048576) ++ " MB" ++ newline ++
  "Free memory: " ++ FormatUint (mem.Available m / 1048576) ++ " MB" ++ newline ++
  "Percentage used memory: " ++ FormatFloat (mem.UsedPercent m) 2 ++ " %" ++
  newline.

Definition disk_lines (d : disk.UsageStat) : string :=
  "Total disk space: " ++ FormatUint (disk.Total d / 1073741824) ++ " GB" ++
  newline ++
  "Used disk space: " ++ FormatUint (disk.Used d / 1073741824) ++ " GB" ++
  newline ++
  "Free disk space: " ++ FormatUint (disk.Free d / 1073741824) ++ " GB" ++
  newline ++
  "Percentage disk space usage: " ++ FormatFloat (disk.UsedPercent d) 2 ++
  " %" ++ newline.

(** One line per core, the cores numbered from [first] in list order. *)
Fixpoint core_lines (first : nat) (percentage : list float64) : string :=
  match percentage with
  | [] => ""
  | p :: rest =>
      Console.core_line (Z.of_nat first) p ++ core_lines (S first) rest
  end.

Definition cores_section (percentage : list float64) : string :=
  "Cores:" ++ newline ++ core_lines 0 percentage.

(** The line of one core, without the newline that ends it. *)
Definition core_text (index : Z) (cpupercent : float64) : string :=
  tab ++ "CPU [" ++ Itoa index ++ "]: " ++ FormatFloat cpupercent 2 ++ " %".

(** The per-core lines for the given core indices and values, pairwise. *)
Definition indexed_lines (indices : list nat) (values : list float64) : string :=
  fold_right
    (fun iv rest => Console.core_line (Z.of_nat (fst iv)) (snd iv) ++ rest)
    "" (combine indices values).

(** The part of the output that one query's answer decides. *)
Definition section_of {A} (text : A -> string) (a : answer A) : string :=
  match a with
  | Success v => text v
  | Failure _ => ""
  end.

(** The sections again, as lists of lines without their newlines. *)
Definition host_rows (h : host.InfoStat) : list string :=
  [ "Hostname: " ++ host.Hostname h;
    "Operating System: " ++ host.Platform h ++ " " ++ host.PlatformVersion h ++
    " (" ++ host.KernelArch h ++ ")" ].

Definition cpu_rows (l : list cpu.InfoStat) : list string :=
  match l with
  | [] => []
  | c :: _ =>
      [ "Model Name: " ++ cpu.ModelName c ++ " Family: " ++ cpu.Family c ++
        " Speed: " ++ FormatFloat (cpu.Mhz c) 2 ++ " MHz" ]
  end.

Definition memory_rows (m : mem.VirtualMemoryStat) : list string :=
  [ "Total memory: " ++ FormatUint (mem.Total m / 1048576) ++ " MB";
    "Free memory: " ++ FormatUint (mem.Available m / 1048576) ++ " MB";
    "Percentage used memory: " ++ FormatFloat (mem.UsedPercent m) 2 ++ " %" ].

Definition disk_rows (d : disk.UsageStat) : list string :=
  [ "Total disk space: " ++ FormatUint (disk.Total d / 1073741824) ++ " GB";
    "Used disk space: " ++ FormatUint (disk.Used d / 1073741824) ++ " GB";
    "Free disk space: " ++ FormatUint (disk.Free d / 1073741824) ++ " GB";
    "Percentage disk space usage: " ++ FormatFloat (disk.UsedPercent d) 2 ++
    " %" ].

Definition cores_rows (percentage : list float64) : list string :=
  "Cores:" ::
  map (fun iv => core_text (Z.of_nat (fst iv)) (snd iv))
    (combine (seq 0 (List.length percentage)) percentage).

Definition rows_of {A} (rows : A -> list string) (a : answer A)
  : list string :=
  match a with
  | Success v => rows v
  | Failure _ => []
  end.

(** The strings of a host record and of the first CPU record hold no
    line feed. *)
Definition host_on_one_line (a : answer host.InfoStat) : bool :=
  match a with
  | Success h =>
      one_line (host.Hostname h) && one_line (host.Platform h) &&
      one_line (host.PlatformVersion h) && one_line (host.KernelArch h)
  | Failure _ => true
  end.

Definition cpu_on_one_line (a : answer (list cpu.InfoStat)) : bool :=
  match a with
  | Success (c :: _) => one_line (cpu.ModelName c) && one_line (cpu.Family c)
  | _ => true
  end.

End ConsoleText.

Module BarText.
Section WithRenderer.
Context {R : lipgloss.Renderer}.
Import Styles.

Definition platformInformation (h : option host.InfoStat) : string :=
  match h with
  | Some h => lipgloss.Title (host.Platform h) ++ " " ++ host.PlatformVersion h
  | None => " "
  end.

Definition hostInformation (h : option host.InfoStat) : string :=
  match h with
  | Some h => host.Hostname h ++ " " ++ host.KernelArch h
  | None => " "
  end.

Definition cpuInformation (l : list cpu.InfoStat) : string :=
  match l with
  | [] => ""
  | c :: _ => cpu.ModelName c ++ " " ++ FormatFloat (cpu.Mhz c) 2 ++ " MHz"
  end.

Definition memoryInformation (m : option mem.VirtualMemoryStat) : string :=
  match m with
  | Some m =>
      "Memory: " ++
      FormatUint (uint64_sub (mem.Total m / 1048576) (mem.Available m / 1048576)) ++
      " of " ++ FormatUint (mem.Total m / 1048576) ++
      " MB used (" ++ Sprintf_2_f (mem.UsedPercent m) ++ "%)"
  | None => "Memory: 0 of 0 MB used ( 0%)"
  end.

Definition diskInformation (d : option disk.UsageStat) : string :=
  match d with
  | Some d =>
      "Disk: " ++ FormatUint (disk.Used d / 1073741824) ++
      " of " ++ FormatUint (disk.Total d / 1073741824) ++
      " GB used (" ++ Sprintf_2_f (disk.UsedPercent d) ++ "%)"
  | None => "Disk: 0 of 0 GB used ( 0%)"
  end.

Definition platformCell (sb : StatusBar) : string :=
  lipgloss.Style_Render highlightLeftStyle (platformInformation (host sb)).

Definition cpuCell (sb : StatusBar) : string :=
  lipgloss.Style_Render highlightRightStyle (cpuInformation (cpu sb)).

Definition diskCell (sb : StatusBar) : string :=
  lipgloss.Style_Render (diskStyle |> lipgloss.Style_Align lipgloss.Right)
    (diskInformation (disk sb)).

(** The bar of [Bar.Render] for a terminal [columns] wide. *)
Definition layout (columns : Z) (sb : StatusBar) : string :=
  let w := lipgloss.Width in
  lipgloss.JoinVertical lipgloss.Top
    [ lipgloss.JoinHorizontal lipgloss.Top
        [ platformCell sb;
          lipgloss.Style_Render
            (generalTextStyle
             |> lipgloss.Style_Width
                  (int_sub (int_sub columns (w (platformCell sb))) (w (cpuCell sb)))
             |> lipgloss.Style_Align lipgloss.Center)
            (hostInformation (host sb));
          cpuCell sb ];
      lipgloss.JoinHorizontal lipgloss.Top
        [ lipgloss.Style_Render
            (memoryStyle
             |> lipgloss.Style_Width (int_sub columns (w (diskCell sb))))
            (memoryInformation (mem sb));
          diskCell sb ] ].

(** The two texts [BarInline.Render] words differently. *)
Definition inline_memoryInformation (m : mem.VirtualMemoryStat) : string :=
  "Memory used: " ++
  FormatUint (uint64_sub (mem.Total m / 1048576) (mem.Available m / 1048576)) ++
  " of " ++ FormatUint (mem.Total m / 1048576) ++
  " MB (" ++ Sprintf_2_f (mem.UsedPercent m) ++ "% used)".

Definition inline_diskInformation (d : disk.UsageStat) : string :=
  "Disk: " ++ FormatUint (disk.Used d / 1073741824) ++
  " of " ++ FormatUint (disk.Total d / 1073741824) ++
  " used (" ++ Sprintf_2_f (disk.UsedPercent d) ++ " %)".

Definition inline_diskCell (d : disk.UsageStat) : string :=
  lipgloss.Style_Render (diskStyle |> lipgloss.Style_Align lipgloss.Right)
    (inline_diskInformation d).

(** The bar of [BarInline.Render] for a terminal [columns] wide, all
    three records present. *)
Definition inline_layout (columns : Z) (sb : StatusBar) (h : host.InfoStat)
    (d : disk.UsageStat) (m : mem.VirtualMemoryStat) : string :=
  let w := lipgloss.Width in
  lipgloss.JoinVertical lipgloss.Top
    [ lipgloss.JoinHorizontal lipgloss.Top
        [ platformCell sb;
          lipgloss.Style_Render
            (generalTextStyle
             |> lipgloss.Style_Width
                  (int_sub (int_sub columns (w (platformCell sb))) (w (cpuCell sb)))
             |> lipgloss.Style_Align lipgloss.Center)
            (hostInformation (Some h));
          cpuCell sb ];
      lipgloss.JoinHorizontal lipgloss.Top
        [ lipgloss.Style_Render
            (memoryStyle
             |> lipgloss.Style_Width (int_sub columns (w (inline_diskCell d))))
            (inline_memoryInformation m);
          inline_diskCell d ] ].

End WithRenderer.
End BarText.

(** The record a successful query leaves in the status bar. *)
Definition record_of {A} (a : answer A) : option A :=
  match a with
  | Success v => Some v
  | Failure _ => None
  end.

Definition list_of {A} (a : answer (list A)) : list A :=
  match a with
  | Success v => v
  | Failure _ => []
  end.

(** The status bar the four queries of a world lead to. *)
Definition snapshot (w : World) : StatusBar :=
  {| cpu := list_of (cpu_Info w);
     disk := record_of (disk_Usage w "/");
     host := record_of (host_Info w);
     mem := record_of (mem_VirtualMemory w) |}.

(** Runs during which the terminal is resized to [columns] after the
    program was loaded and the status bar built, just before [Render]. *)
Definition Bar_run_resized {R : lipgloss.Renderer} (columns : Z) : IO unit :=
  pkg <- Bar.package_init ;;
  bar <- build ;;
  user_resizes columns ;;
  Bar.Render pkg bar.

Definition BarInline_run_resized {R : lipgloss.Renderer} (columns : Z)
  : IO unit :=
  bar <- build ;;
  user_resizes columns ;;
  BarInline.Render bar.

(* ===================================================================== *)
(** * Worlds to run the programs in                                      *)
(* ===================================================================== *)

Module Scenario.

Definition box1 : host.InfoStat :=
  {| host.Hostname := "box1"; host.Platform := "ubuntu";
     host.PlatformVersion := "22.04"; host.KernelArch := "x86_64" |}.

Definition gen9 : cpu.InfoStat :=
  {| cpu.ModelName := "Gen9"; cpu.Family := ""; cpu.Mhz := float64_of_Z 3200 |}.

(** 8192 MB in total, 2048 MB available; [used] is what the provider
    itself counts as used. *)
Definition memory (used : Z) : mem.VirtualMemoryStat :=
  {| mem.Total := 8589934592; mem.Available := 2147483648;
     mem.Used := used; mem.UsedPercent := float64_of_Z 75 |}.

(** 100 GB in total, 50 GB used, [free] bytes free. *)
Definition disk100 (free : Z) : disk.UsageStat :=
  {| disk.Total := 107374182400; disk.Free := free;
     disk.Used := 53687091200; disk.UsedPercent := float64_of_Z 50 |}.

(** The machine of the scenario: every query but the per-core one
    succeeds. *)
Definition world (free : Z) (columns : Z) : World :=
  {| host_Info := Success box1;
     cpu_Info := Success [gen9];
     mem_VirtualMemory := Success (memory 6442450944);
     disk_Usage := fun _ => Success (disk100 free);
     cpu_Percent := Failure "not implemented yet";
     term_columns := columns;
     stdout := "" |}.

(** The ten lines the scenario is expected to print. *)
Definition expected_lines : list string :=
  [ "Hostname: box1";
    "Operating System: ubuntu 22.04 (x86_64)";
    "Model Name: Gen9 Family:  Speed: 3200.00 MHz";
    "Total memory: 8192 MB";
    "Free memory: 2048 MB";
    "Percentage used memory: 75.00 %";
    "Total disk space: 100 GB";
    "Used disk space: 50 GB";
    "Free disk space: 50 GB";
    "Percentage disk space usage: 50.00 %" ].

(** A machine on which every query fails. *)
Definition silent (columns : Z) : World :=
  {| host_Info := Failure "host: unavailable";
     cpu_Info := Failure "cpu: unavailable";
     mem_VirtualMemory := Failure "mem: unavailable";
     disk_Usage := fun _ => Failure "disk: unavailable";
     cpu_Percent := Failure "cpu: unavailable";
     term_columns := columns;
     stdout := "" |}.

(** A machine on which only the host query fails. *)
Definition hostless (columns : Z) : World :=
  {| host_Info := Failure "host: unavailable";
     cpu_Info := Success [gen9];
     mem_VirtualMemory := Success (memory 6442450944);
     disk_Usage := fun _ => Success (disk100 53687091200);
     cpu_Percent := Failure "not implemented yet";
     term_columns := columns;
     stdout := "" |}.

(** Loads of five cores. *)
Definition five_cores : list float64 :=
  [ float64_of_fraction 87456 1000; float64_of_Z 0; float64_of_fraction 5 2;
    float64_of_Z 100; float64_of_fraction 5 1000 ].

(** One MB in total and two available: more available than there is. *)
Definition overcommitted : mem.VirtualMemoryStat :=
  {| mem.Total := 1048576; mem.Available := 2097152;
     mem.Used := 0; mem.UsedPercent := float64_of_Z 0 |}.

End Scenario.

(* ===================================================================== *)
(** * Basic facts                                                        *)
(* ===================================================================== *)

Lemma megabyteDiv_value : megabyteDiv = 1048576.
Proof. reflexivity. Qed.

Lemma gigabyteDiv_value : gigabyteDiv = 1073741824.
Proof. reflexivity. Qed.

(** The percentages and clock speeds of the scenarios are [float64]
    values. *)
Lemma scenario_floats_are_float64 :
  forallb is_float64
    (Scenario.five_cores ++
     [cpu.Mhz Scenario.gen9; mem.UsedPercent (Scenario.memory 0);
      disk.UsedPercent (Scenario.disk100 0)])%list = true.
Proof. reflexivity. Qed.

Lemma append_assoc (a b c : string) : (a ++ b) ++ c = a ++ (b ++ c).
Proof. induction a as [|x a IH]; simpl; [reflexivity | now rewrite IH]. Qed.

Lemma append_nil_r (a : string) : a ++ "" = a.
Proof. induction a as [|x a IH]; simpl; [reflexivity | now rewrite IH]. Qed.

Lemma write_write (a b : string) (w : World) :
  write b (write a w) = write (a ++ b) w.
Proof. unfold write; simpl. now rewrite append_assoc. Qed.

Lemma write_nil (w : World) : write "" w = w.
Proof. destruct w; unfold write; simpl. now rewrite append_nil_r. Qed.

Lemma wrap_int_small (x : Z) : in_int x -> wrap_int x = x.
Proof.
  unfold in_int, int_min, int_max, wrap_int. intros H.
  rewrite Z.mod_small; lia.
Qed.

Lemma wrap_uint64_small (x : Z) : in_uint64 x -> wrap_uint64 x = x.
Proof. unfold in_uint64, wrap_uint64. intros H. now apply Z.mod_small. Qed.

(** Unfolding the monad on a run. *)
Ltac run_io :=
  unfold bind, ret, load, panic, Println, Print; simpl.

(** Two texts that differ in the bracketing of their appends. *)
Ltac same_text :=
  try unfold newline, tab;
  repeat (progress (simpl; rewrite ?append_assoc));
  reflexivity.

(* ===================================================================== *)
(** * The per-core list                                                  *)
(* ===================================================================== *)

Lemma int_add_succ (k : nat) :
  Z.of_nat k + 1 <= int_max -> int_add (Z.of_nat k) 1 = Z.of_nat (S k).
Proof.
  intros H. unfold int_add. rewrite wrap_int_small.
  - lia.
  - unfold in_int, int_min. lia.
Qed.

Lemma int_add_nat (k off : nat) :
  Z.of_nat (k + off) <= int_max ->
  int_add (Z.of_nat k) (Z.of_nat off) = Z.of_nat (k + off).
Proof.
  intros H. unfold int_add. rewrite wrap_int_small.
  - lia.
  - unfold in_int, int_min. lia.
Qed.

Lemma split_point (n : nat) :
  Z.of_nat n <= int_max -> int_div (Z.of_nat n) 2 = Z.of_nat (n / 2).
Proof.
  intros H. unfold int_div.
  rewrite Z.quot_div_nonneg by lia.
  replace (Z.of_nat n / 2) with (Z.of_nat (n / 2))
    by (rewrite Nat2Z.inj_div; reflexivity).
  apply wrap_int_small. unfold in_int, int_min.
  assert (n / 2 <= n)%nat by (apply Nat.Div0.div_le_upper_bound; lia).
  lia.
Qed.

(** The split index is within the bounds of the slice, so neither slice
    expression can panic. *)
Lemma split_index_in_bounds (percentage : list float64) :
  len percentage <= int_max ->
  0 <= int_div (len percentage) 2 <= len percentage.
Proof.
  intros H. unfold len in *. rewrite split_point by exact H.
  assert (List.length percentage / 2 <= List.length percentage)%nat
    by (apply Nat.Div0.div_le_upper_bound; lia).
  lia.
Qed.

(** The first loop: indices are the loop counter. *)
Lemma range_first_loop (xs : list float64) :
  forall (k : nat) (w : World),
    Z.of_nat k + len xs <= int_max ->
    range_from (Z.of_nat k) xs
      (fun idx cpupercent => Print (Console.core_line idx cpupercent)) w
    = Returned tt (write (ConsoleText.core_lines k xs) w).
Proof.
  induction xs as [|x xs IH]; intros k w H.
  - simpl. unfold ret. now rewrite write_nil.
  - unfold len in H. rewrite length_cons, Nat2Z.inj_succ in H.
    simpl. unfold bind at 1. unfold Print at 1.
    rewrite int_add_succ by lia.
    rewrite IH by (unfold len; lia).
    now rewrite write_write.
Qed.

(** The second loop: indices are the loop counter plus the offset. *)
Lemma range_second_loop (xs : list float64) (off : nat) :
  forall (k : nat) (w : World),
    Z.of_nat (k + off) + len xs <= int_max ->
    range_from (Z.of_nat k) xs
      (fun idx cpupercent =>
         Print (Console.core_line (int_add idx (Z.of_nat off)) cpupercent)) w
    = Returned tt (write (ConsoleText.core_lines (k + off) xs) w).
Proof.
  induction xs as [|x xs IH]; intros k w H.
  - simpl. unfold ret. now rewrite write_nil.
  - unfold len in H. rewrite length_cons, Nat2Z.inj_succ in H.
    simpl. unfold bind at 1. unfold Print at 1.
    rewrite int_add_succ by lia.
    rewrite int_add_nat by lia.
    rewrite IH by (unfold len; lia).
    now rewrite write_write.
Qed.

Lemma core_lines_app (a b : list float64) :
  forall k,
    ConsoleText.core_lines k (a ++ b)%list =
    ConsoleText.core_lines k a ++ ConsoleText.core_lines (k + List.length a) b.
Proof.
  induction a as [|x a IH]; intros k; cbn [ConsoleText.core_lines app length].
  - now rewrite Nat.add_0_r.
  - rewrite IH, append_assoc.
    now replace (S k + List.length a)%nat with (k + S (List.length a))%nat by lia.
Qed.

Lemma halves_append (percentage : list float64) :
  (Console.firstCpus percentage ++ Console.secondCpus percentage)%list
  = percentage.
Proof. apply firstn_skipn. Qed.

Lemma firstCpus_length (percentage : list float64) :
  len percentage <= int_max ->
  List.length (Console.firstCpus percentage) = (List.length percentage / 2)%nat.
Proof.
  intros H. unfold Console.firstCpus, slice_to, len in *.
  rewrite split_point by exact H. rewrite Nat2Z.id.
  apply firstn_length_le. apply Nat.Div0.div_le_upper_bound. lia.
Qed.

Lemma secondCpus_length (percentage : list float64) :
  len percentage <= int_max ->
  List.length (Console.secondCpus percentage) =
  (List.length percentage - List.length percentage / 2)%nat.
Proof.
  intros H. unfold Console.secondCpus, slice_from, len in *.
  rewrite split_point by exact H. rewrite Nat2Z.id.
  apply length_skipn.
Qed.

Lemma DisplayCPUPercentage_run (percentage : list float64) (w : World) :
  len percentage <= int_max ->
  Console.DisplayCPUPercentage percentage w =
  Returned tt (write (ConsoleText.cores_section percentage) w).
Proof.
  intros H.
  pose proof (firstCpus_length percentage H) as Hfirst.
  pose proof (secondCpus_length percentage H) as Hsecond.
  assert (Hhalf : (List.length percentage / 2 <= List.length percentage)%nat)
    by (apply Nat.Div0.div_le_upper_bound; lia).
  unfold Console.DisplayCPUPercentage, range.
  unfold bind at 1. unfold Println at 1.
  unfold bind at 1.
  change 0 with (Z.of_nat 0).
  rewrite range_first_loop by (unfold len in *; lia).
  unfold len at 1.
  rewrite (range_second_loop _ _ 0%nat) by (unfold len in *; lia).
  rewrite !write_write.
  rewrite <- core_lines_app, halves_append.
  reflexivity.
Qed.

(* ===================================================================== *)
(** * The console printer, function by function                          *)
(* ===================================================================== *)

Lemma Console_DisplayHostInformation_run (h : host.InfoStat) (w : World) :
  Console.DisplayHostInformation (Some h) w =
  Returned tt (write (ConsoleText.host_lines h) w).
Proof.
  unfold Console.DisplayHostInformation. run_io.
  rewrite !write_write. unfold ConsoleText.host_lines.
  do 2 f_equal. same_text.
Qed.

Lemma Console_DisplayCPUStat_run (l : list cpu.InfoStat) (w : World) :
  Console.DisplayCPUStat l w = Returned tt (write (ConsoleText.cpu_line l) w).
Proof.
  destruct l as [|c l]; unfold Console.DisplayCPUStat.
  - unfold ret. now rewrite write_nil.
  - run_io. rewrite !write_write. unfold ConsoleText.cpu_line.
    do 2 f_equal. same_text.
Qed.

Lemma Console_DisplayHostMemory_run (m : mem.VirtualMemoryStat) (w : World) :
  Console.DisplayHostMemory (Some m) w =
  Returned tt (write (ConsoleText.memory_lines m) w).
Proof.
  unfold Console.DisplayHostMemory. run_io.
  rewrite !write_write. unfold ConsoleText.memory_lines, Sprintln.
  unfold uint64_div. rewrite megabyteDiv_value.
  do 2 f_equal. same_text.
Qed.

Lemma Console_DisplayDiskInformation_run (d : disk.UsageStat) (w : World) :
  Console.DisplayDiskInformation (Some d) w =
  Returned tt (write (ConsoleText.disk_lines d) w).
Proof.
  unfold Console.DisplayDiskInformation. run_io.
  rewrite !write_write. unfold ConsoleText.disk_lines.
  unfold uint64_div. rewrite gigabyteDiv_value.
  do 2 f_equal. same_text.
Qed.

(** The Display functions take a pointer and read through it at once. *)
Lemma Console_Display_nil_panics (w : World) :
  Console.DisplayHostInformation None w = Panicked nil_dereference w /\
  Console.DisplayHostMemory None w = Panicked nil_dereference w /\
  Console.DisplayDiskInformation None w = Panicked nil_dereference w.
Proof. repeat split. Qed.

(** The five stages of [main], each followed by the rest [k] of the
    program. *)
Lemma Console_stage_host (k : IO unit) (w : World) :
  ('(host, err) <- GetHostInformation ;;
   (if is_nil err then Console.DisplayHostInformation host else ret tt) ;;
   k) w
  = k (write (ConsoleText.section_of ConsoleText.host_lines (host_Info w)) w).
Proof.
  unfold GetHostInformation, host_Info_call, bind at 1 2.
  destruct (host_Info w) as [h|e]; simpl.
  - unfold bind. now rewrite Console_DisplayHostInformation_run.
  - unfold bind, ret. now rewrite write_nil.
Qed.

Lemma Console_stage_cpu (k : IO unit) (w : World) :
  ('(stat, err) <- GetCPUStat ;;
   (if is_nil err then Console.DisplayCPUStat stat else ret tt) ;;
   k) w
  = k (write (ConsoleText.section_of ConsoleText.cpu_line (cpu_Info w)) w).
Proof.
  unfold GetCPUStat, cpu_Info_call, bind at 1 2.
  destruct (cpu_Info w) as [l|e]; simpl.
  - unfold bind. now rewrite Console_DisplayCPUStat_run.
  - unfold bind, ret. now rewrite write_nil.
Qed.

Lemma Console_stage_memory (k : IO unit) (w : World) :
  ('(mem, err) <- GetHostMemory ;;
   (if is_nil err then Console.DisplayHostMemory mem else ret tt) ;;
   k) w
  = k (write (ConsoleText.section_of ConsoleText.memory_lines
                (mem_VirtualMemory w)) w).
Proof.
  unfold GetHostMemory, mem_VirtualMemory_call, bind at 1 2.
  destruct (mem_VirtualMemory w) as [m|e]; simpl.
  - unfold bind. now rewrite Console_DisplayHostMemory_run.
  - unfold bind, ret. now rewrite write_nil.
Qed.

Lemma Console_stage_disk (k : IO unit) (w : World) :
  ('(disk, err) <- GetDiskInformation ;;
   (if is_nil err then Console.DisplayDiskInformation disk else ret tt) ;;
   k) w
  = k (write (ConsoleText.section_of ConsoleText.disk_lines
                (disk_Usage w "/")) w).
Proof.
  unfold GetDiskInformation, disk_Usage_call, bind at 1 2.
  destruct (disk_Usage w "/") as [d|e]; simpl.
  - unfold bind. now rewrite Console_DisplayDiskInformation_run.
  - unfold bind, ret. now rewrite write_nil.
Qed.

Lemma Console_stage_cores (w : World) :
  len (list_of (cpu_Percent w)) <= int_max ->
  ('(percentage, err) <- GetCPUPercentage ;;
   (if is_nil err then Console.DisplayCPUPercentage percentage else ret tt)) w
  = Returned tt
      (write (ConsoleText.section_of ConsoleText.cores_section
                (cpu_Percent w)) w).
Proof.
  intros H.
  unfold GetCPUPercentage, cpu_Percent_call, bind at 1 2.
  destruct (cpu_Percent w) as [l|e]; simpl.
  - now rewrite DisplayCPUPercentage_run.
  - unfold ret. now rewrite write_nil.
Qed.

(** [main]: one section per query, each decided by that query's answer
    alone. *)
Lemma Console_main_run (w : World) :
  len (list_of (cpu_Percent w)) <= int_max ->
  Console.main w =
  Returned tt
    (write
       (ConsoleText.section_of ConsoleText.host_lines (host_Info w) ++
        ConsoleText.section_of ConsoleText.cpu_line (cpu_Info w) ++
        ConsoleText.section_of ConsoleText.memory_lines (mem_VirtualMemory w) ++
        ConsoleText.section_of ConsoleText.disk_lines (disk_Usage w "/") ++
        ConsoleText.section_of ConsoleText.cores_section (cpu_Percent w))
       w).
Proof.
  intros Hlen. unfold Console.main.
  rewrite Console_stage_host, Console_stage_cpu, Console_stage_memory,
    Console_stage_disk, Console_stage_cores by exact Hlen.
  cbn [host_Info cpu_Info mem_VirtualMemory disk_Usage cpu_Percent write].
  now rewrite !write_write.
Qed.

(* ===================================================================== *)
(** * The status bars, function by function                              *)
(* ===================================================================== *)

(** Each [With...] call reads the world and leaves it as it is; it sets
    its own field when its query succeeded and nothing otherwise. *)
Lemma WithHostInformation_run (sb : StatusBar) (w : World) :
  WithHostInformation sb w =
  Returned
    match host_Info w with
    | Success h =>
        {| cpu := cpu sb; disk := disk sb; host := Some h; mem := mem sb |}
    | Failure _ => sb
    end w.
Proof.
  unfold WithHostInformation, GetHostInformation, host_Info_call, bind.
  destruct (host_Info w); reflexivity.
Qed.

Lemma WithCPUInformation_run (sb : StatusBar) (w : World) :
  WithCPUInformation sb w =
  Returned
    match cpu_Info w with
    | Success l =>
        {| cpu := l; disk := disk sb; host := host sb; mem := mem sb |}
    | Failure _ => sb
    end w.
Proof.
  unfold WithCPUInformation, GetCPUStat, cpu_Info_call, bind.
  destruct (cpu_Info w); reflexivity.
Qed.

Lemma WithMemoryInformation_run (sb : StatusBar) (w : World) :
  WithMemoryInformation sb w =
  Returned
    match mem_VirtualMemory w with
    | Success m =>
        {| cpu := cpu sb; disk := disk sb; host := host sb; mem := Some m |}
    | Failure _ => sb
    end w.
Proof.
  unfold WithMemoryInformation, GetHostMemory, mem_VirtualMemory_call, bind.
  destruct (mem_VirtualMemory w); reflexivity.
Qed.

Lemma WithDiskInformation_run (sb : StatusBar) (w : World) :
  WithDiskInformation sb w =
  Returned
    match disk_Usage w "/" with
    | Success d =>
        {| cpu := cpu sb; disk := Some d; host := host sb; mem := mem sb |}
    | Failure _ => sb
    end w.
Proof.
  unfold WithDiskInformation, GetDiskInformation, disk_Usage_call, bind.
  destruct (disk_Usage w "/"); reflexivity.
Qed.

Lemma build_run (w : World) : build w = Returned (snapshot w) w.
Proof.
  unfold build.
  unfold bind at 1. rewrite WithHostInformation_run.
  unfold bind at 1. rewrite WithCPUInformation_run.
  unfold bind at 1. rewrite WithMemoryInformation_run.
  rewrite WithDiskInformation_run. unfold snapshot.
  destruct (host_Info w), (cpu_Info w), (mem_VirtualMemory w),
    (disk_Usage w "/"); reflexivity.
Qed.

Section BarRuns.
Context {R : lipgloss.Renderer}.
Import Styles.

Lemma Bar_DisplayHostMemory_run (sb : StatusBar) (width : Z) (w : World) :
  Bar.DisplayHostMemory sb width w =
  Returned
    (lipgloss.Style_Render (memoryStyle |> lipgloss.Style_Width width)
       (BarText.memoryInformation (mem sb))) w.
Proof.
  unfold Bar.DisplayHostMemory. destruct (mem sb) as [m|]; run_io.
  - unfold uint64_div. rewrite megabyteDiv_value. reflexivity.
  - reflexivity.
Qed.

Lemma Bar_DisplayHostInformation_run (sb : StatusBar) (width : Z) (w : World) :
  Bar.DisplayHostInformation sb width w =
  Returned
    (lipgloss.Style_Render
       (generalTextStyle |> lipgloss.Style_Width width
        |> lipgloss.Style_Align lipgloss.Center)
       (BarText.hostInformation (host sb))) w.
Proof.
  unfold Bar.DisplayHostInformation. destruct (host sb) as [h|]; reflexivity.
Qed.

Lemma Bar_DisplayPlatformInformation_run (sb : StatusBar) (w : World) :
  Bar.DisplayPlatformInformation sb w = Returned (BarText.platformCell sb) w.
Proof.
  unfold Bar.DisplayPlatformInformation, BarText.platformCell.
  destruct (host sb) as [h|]; reflexivity.
Qed.

Lemma Bar_DisplayDiskInformation_run (sb : StatusBar) (w : World) :
  Bar.DisplayDiskInformation sb w = Returned (BarText.diskCell sb) w.
Proof.
  unfold Bar.DisplayDiskInformation, BarText.diskCell.
  destruct (disk sb) as [d|]; run_io.
  - unfold uint64_div. rewrite gigabyteDiv_value. reflexivity.
  - reflexivity.
Qed.

Lemma Bar_DisplayCPUInformation_run (sb : StatusBar) (w : World) :
  Bar.DisplayCPUInformation sb w = Returned (BarText.cpuCell sb) w.
Proof. reflexivity. Qed.

Lemma Bar_Render_run (pkg : Bar.Package) (sb : StatusBar) (w : World) :
  Bar.Render pkg sb w =
  Returned tt
    (write (Sprintln [BarText.layout (Bar.terminalWidth pkg) sb]) w).
Proof.
  unfold Bar.Render.
  unfold bind at 1. rewrite Bar_DisplayPlatformInformation_run.
  unfold bind at 1. rewrite Bar_DisplayCPUInformation_run.
  unfold bind at 1. rewrite Bar_DisplayHostInformation_run.
  unfold bind at 1. rewrite Bar_DisplayDiskInformation_run.
  unfold bind at 1. rewrite Bar_DisplayHostMemory_run.
  reflexivity.
Qed.

Lemma Bar_program_run (w : World) :
  Bar.program w =
  Returned tt (write (Sprintln [BarText.layout (term_columns w) (snapshot w)]) w).
Proof.
  unfold Bar.program, Bar.package_init, Bar.main, term_GetSize.
  unfold bind at 1 2. unfold ret at 1. unfold bind at 1.
  rewrite build_run. now rewrite Bar_Render_run.
Qed.

Lemma BarInline_Render_run (sb : StatusBar) (h : host.InfoStat)
    (d : disk.UsageStat) (m : mem.VirtualMemoryStat) (w : World) :
  host sb = Some h -> disk sb = Some d -> mem sb = Some m ->
  BarInline.Render sb w =
  Returned tt
    (write (Sprintln [BarText.inline_layout (term_columns w) sb h d m]) w).
Proof.
  intros Hh Hd Hm.
  unfold BarInline.Render, BarText.inline_layout, BarText.platformCell,
    BarText.cpuCell, BarText.inline_diskCell, BarText.inline_diskInformation,
    BarText.inline_memoryInformation, BarText.platformInformation,
    BarText.hostInformation, BarText.cpuInformation, term_GetSize.
  rewrite Hh, Hd, Hm.
  unfold bind, load, ret, Println, uint64_div.
  rewrite megabyteDiv_value, gigabyteDiv_value.
  reflexivity.
Qed.

Lemma BarInline_Render_nil (sb : StatusBar) (w : World) :
  host sb = None \/ disk sb = None \/ mem sb = None ->
  BarInline.Render sb w = Panicked nil_dereference w.
Proof.
  intros H. unfold BarInline.Render, term_GetSize.
  destruct (host sb) as [h|] eqn:Hh; [|reflexivity].
  destruct (disk sb) as [d|] eqn:Hd; [|reflexivity].
  destruct (mem sb) as [m|] eqn:Hm; [|reflexivity].
  destruct H as [H|[H|H]]; discriminate.
Qed.

End BarRuns.

(* ===================================================================== *)
(** * Formatting numbers                                                 *)
(* ===================================================================== *)

Lemma round_half_even_nearest (num den : Z) :
  0 < den -> 2 * Z.abs (round_half_even num den * den - num) <= den.
Proof.
  intros Hden. unfold round_half_even.
  pose proof (Z.div_mod num den ltac:(lia)) as Hdm.
  pose proof (Z.mod_pos_bound num den Hden) as Hr.
  set (q := num / den) in *. set (r := num mod den) in *.
  destruct (Z.ltb_spec (2 * r) den) as [H1|H1].
  - replace (q * den - num) with (- r) by lia. lia.
  - destruct (Z.ltb_spec den (2 * r)) as [H2|H2].
    + replace ((q + 1) * den - num) with (den - r) by lia. lia.
    + destruct (Z.even q).
      * replace (q * den - num) with (- r) by lia. lia.
      * replace ((q + 1) * den - num) with (den - r) by lia. lia.
Qed.

Lemma scaled_fraction_positive (m : positive) (e : Z) (prec : nat) :
  0 <= fst (scaled_fraction m e prec) /\ 0 < snd (scaled_fraction m e prec).
Proof.
  unfold scaled_fraction.
  destruct (Z.leb_spec 0 e) as [He|He]; cbn [fst snd].
  - split; [|lia].
    apply Z.mul_nonneg_nonneg; [apply Z.mul_nonneg_nonneg|]; try lia;
      apply Z.pow_nonneg; lia.
  - split.
    + apply Z.mul_nonneg_nonneg; [lia|apply Z.pow_nonneg; lia].
    + apply Z.pow_pos_nonneg; lia.
Qed.

Lemma scaled_round_nearest (s : bool) (m : positive) (e : Z) (prec : nat) :
  nearest_scaled (S754_finite s m e) prec (scaled_round m e prec).
Proof.
  unfold nearest_scaled, scaled_round.
  pose proof (scaled_fraction_positive m e prec) as [_ Hden].
  destruct (scaled_fraction m e prec) as [num den]; cbn [fst snd] in *.
  now apply round_half_even_nearest.
Qed.

(** Decimal numerals are made of digits. *)
Lemma string_of_uint_digits (d : Decimal.uint) :
  all_chars is_digit (NilEmpty.string_of_uint d) = true.
Proof. induction d; simpl; auto. Qed.

Lemma FormatUint_digits (n : Z) : all_chars is_digit (FormatUint n) = true.
Proof.
  unfold FormatUint, NilZero.string_of_uint.
  destruct (N.to_uint (Z.to_N n)) eqn:E; try reflexivity;
    rewrite <- E; apply string_of_uint_digits.
Qed.

Lemma two_decimals (r : Z) :
  0 <= r < 100 ->
  String.length (zero_pad 2 (FormatUint r)) = 2%nat /\
  all_chars is_digit (zero_pad 2 (FormatUint r)) = true.
Proof.
  intros Hr.
  assert (Hall : forallb two_decimals_ok (seq 0 100) = true)
    by (vm_compute; reflexivity).
  rewrite forallb_forall in Hall.
  specialize (Hall (Z.to_nat r)).
  rewrite in_seq in Hall.
  unfold two_decimals_ok in Hall. rewrite Z2Nat.id in Hall by lia.
  apply andb_prop in Hall; [|lia].
  destruct Hall as [Hlen Hdig]. apply Nat.eqb_eq in Hlen. auto.
Qed.

Lemma fixed_text_two (neg : bool) (q : Z) :
  fixed_text neg q 2 =
  (if neg then "-" else "") ++ FormatUint (q / 100) ++ "." ++
  zero_pad 2 (FormatUint (q mod 100)).
Proof. reflexivity. Qed.

Lemma fixed_text_none (neg : bool) (q : Z) :
  fixed_text neg q 0 = (if neg then "-" else "") ++ FormatUint q.
Proof.
  unfold fixed_text. change (10 ^ Z.of_nat 0) with 1.
  now rewrite Z.div_1_r, append_nil_r.
Qed.

Lemma rounded_nearest (x : float64) (prec : nat) :
  is_finite x = true -> nearest_scaled x prec (rounded x prec).
Proof.
  destruct x as [s|s| |s m e]; intros H; try discriminate H.
  - reflexivity.
  - exact (scaled_round_nearest s m e prec).
Qed.

Lemma FormatFloat_finite (x : float64) (prec : nat) :
  is_finite x = true ->
  FormatFloat x prec = fixed_text (sign_bit x) (rounded x prec) prec.
Proof. destruct x; simpl; intros H; try discriminate; reflexivity. Qed.

Lemma core_lines_indexed (values : list float64) :
  forall first,
    ConsoleText.core_lines first values =
    ConsoleText.indexed_lines (seq first (List.length values)) values.
Proof.
  induction values as [|p values IH]; intros first.
  - reflexivity.
  - cbn [ConsoleText.core_lines List.length seq].
    unfold ConsoleText.indexed_lines. cbn [combine fold_right fst snd].
    now rewrite IH.
Qed.

(* ===================================================================== *)
(** * Properties of the programs                                         *)
(* ===================================================================== *)

(** C1.  [DisplayCPUPercentage] splits a list of N per-core percentages
    at the floor midpoint: the first half has N/2 entries, the second
    N - N/2, and together they are the list.  After the header it prints
    one line per entry; the first loop prints the indices 0, 1, ... of
    its half, the second loop those of its half shifted by the length of
    the first, and the two runs of indices together are 0, 1, ..., N-1,
    each with the value at that position of the list. *)
Theorem cpu_percentage_floor_split (percentage : list float64) (w : World) :
  len percentage <= int_max ->
  let first := Console.firstCpus percentage in
  let second := Console.secondCpus percentage in
  let n1 := List.length first in
  let n2 := List.length second in
  len first = len percentage / 2 /\
  len second = len percentage - len percentage / 2 /\
  (first ++ second)%list = percentage /\
  Console.DisplayCPUPercentage percentage w =
    Returned tt
      (write ("Cores:" ++ newline ++
              ConsoleText.indexed_lines (seq 0 n1) first ++
              ConsoleText.indexed_lines (seq n1 n2) second) w) /\
  (seq 0 n1 ++ seq n1 n2)%list = seq 0 (List.length percentage) /\
  ConsoleText.indexed_lines (seq 0 n1) first ++
  ConsoleText.indexed_lines (seq n1 n2) second =
  ConsoleText.indexed_lines (seq 0 (List.length percentage)) percentage.
Proof.
  intros H first second n1 n2.
  pose proof (firstCpus_length percentage H) as Hfirst.
  pose proof (secondCpus_length percentage H) as Hsecond.
  assert (Hhalf : (List.length percentage / 2 <= List.length percentage)%nat)
    by (apply Nat.Div0.div_le_upper_bound; lia).
  assert (Hn : (n1 + n2 = List.length percentage)%nat)
    by (unfold n1, n2, first, second; lia).
  assert (Htext :
    ConsoleText.indexed_lines (seq 0 n1) first ++
    ConsoleText.indexed_lines (seq n1 n2) second =
    ConsoleText.indexed_lines (seq 0 (List.length percentage)) percentage).
  { unfold n1, n2. rewrite <- !core_lines_indexed.
    transitivity (ConsoleText.core_lines 0 (first ++ second)%list).
    - now rewrite core_lines_app.
    - unfold first, second. now rewrite halves_append. }
  repeat split.
  - unfold len, first. rewrite Hfirst.
    now rewrite Nat2Z.inj_div.
  - unfold len, second. rewrite Hsecond.
    rewrite Nat2Z.inj_sub by exact Hhalf. now rewrite Nat2Z.inj_div.
  - apply halves_append.
  - rewrite DisplayCPUPercentage_run by exact H.
    unfold ConsoleText.cores_section. rewrite core_lines_indexed.
    now rewrite Htext.
  - rewrite <- Hn. symmetry. apply seq_app.
  - exact Htext.
Qed.

Lemma cpu_percentage_floor_split_five :
  len Scenario.five_cores <= int_max /\
  len (Console.firstCpus Scenario.five_cores) = 2 /\
  len (Console.secondCpus Scenario.five_cores) = 3 /\
  output (Console.DisplayCPUPercentage Scenario.five_cores)
    (Scenario.silent 80) =
  Some ("Cores:" ++ newline ++
        tab ++ "CPU [0]: 87.46 %" ++ newline ++
        tab ++ "CPU [1]: 0.00 %" ++ newline ++
        tab ++ "CPU [2]: 2.50 %" ++ newline ++
        tab ++ "CPU [3]: 100.00 %" ++ newline ++
        tab ++ "CPU [4]: 0.01 %" ++ newline).
Proof.
  assert (H : len Scenario.five_cores <= int_max) by (vm_compute; discriminate).
  destruct (cpu_percentage_floor_split Scenario.five_cores
              (Scenario.silent 80) H) as (H1 & H2 & _ & H4 & _).
  split; [exact H|]. split; [exact H1|]. split; [exact H2|].
  unfold output. rewrite H4. reflexivity.
Defined.

Lemma uint64_sub_no_wrap (a b : Z) :
  in_uint64 a -> 0 <= b <= a -> uint64_sub a b = a - b.
Proof.
  unfold in_uint64, uint64_sub. intros Ha Hb.
  apply wrap_uint64_small. unfold in_uint64. lia.
Qed.

Lemma uint64_sub_wraps (a b : Z) :
  0 <= a < b -> in_uint64 b -> uint64_sub a b = uint64_modulus - (b - a).
Proof.
  unfold in_uint64, uint64_sub, wrap_uint64. intros Ha Hb.
  symmetry. apply Z.mod_unique_pos with (q := -1); lia.
Qed.

Lemma megabytes_bound (b : Z) :
  in_uint64 b -> 0 <= b / 1048576 < 2 ^ 44.
Proof.
  unfold in_uint64, uint64_modulus. intros Hb. split.
  - apply Z.div_pos; lia.
  - apply Z.div_lt_upper_bound; [lia|].
    change (1048576 * 2 ^ 44) with (2 ^ 64). lia.
Qed.

(** C4.  A byte count is shown in megabytes as its quotient by 1048576
    and in gigabytes as its quotient by 1073741824, the quotient of the
    unsigned division, which drops the remainder.  The console prints the
    memory totals in megabytes and the disk totals in gigabytes, and the
    cells of the status bar do the same. *)
Theorem byte_counts_in_units {R : lipgloss.Renderer}
    (m : mem.VirtualMemoryStat) (d : disk.UsageStat) (sb : StatusBar)
    (width : Z) (w : World) :
  in_uint64 (mem.Total m) -> in_uint64 (mem.Available m) ->
  in_uint64 (disk.Total d) -> in_uint64 (disk.Used d) ->
  in_uint64 (disk.Free d) ->
  mem sb = Some m -> disk sb = Some d ->
  megabyteDiv = 1048576 /\ gigabyteDiv = 1073741824 /\
  (forall b, in_uint64 b ->
     uint64_div b megabyteDiv = b / 1048576 /\
     1048576 * (b / 1048576) <= b < 1048576 * (b / 1048576) + 1048576 /\
     uint64_div b gigabyteDiv = b / 1073741824 /\
     1073741824 * (b / 1073741824) <= b
       < 1073741824 * (b / 1073741824) + 1073741824) /\
  Console.DisplayHostMemory (Some m) w =
    Returned tt
      (write
         ("Total memory: " ++ FormatUint (mem.Total m / 1048576) ++ " MB" ++
          newline ++
          "Free memory: " ++ FormatUint (mem.Available m / 1048576) ++ " MB" ++
          newline ++
          "Percentage used memory: " ++ FormatFloat (mem.UsedPercent m) 2 ++
          " %" ++ newline) w) /\
  Console.DisplayDiskInformation (Some d) w =
    Returned tt
      (write
         ("Total disk space: " ++ FormatUint (disk.Total d / 1073741824) ++
          " GB" ++ newline ++
          "Used disk space: " ++ FormatUint (disk.Used d / 1073741824) ++
          " GB" ++ newline ++
          "Free disk space: " ++ FormatUint (disk.Free d / 1073741824) ++
          " GB" ++ newline ++
          "Percentage disk space usage: " ++
          FormatFloat (disk.UsedPercent d) 2 ++ " %" ++ newline) w) /\
  Bar.DisplayHostMemory sb width w =
    Returned
      (lipgloss.Style_Render
         (Styles.memoryStyle |> lipgloss.Style_Width width)
         ("Memory: " ++
          FormatUint
            (uint64_sub (mem.Total m / 1048576) (mem.Available m / 1048576)) ++
          " of " ++ FormatUint (mem.Total m / 1048576) ++
          " MB used (" ++ Sprintf_2_f (mem.UsedPercent m) ++ "%)")) w /\
  Bar.DisplayDiskInformation sb w =
    Returned
      (lipgloss.Style_Render
         (Styles.diskStyle |> lipgloss.Style_Align lipgloss.Right)
         ("Disk: " ++ FormatUint (disk.Used d / 1073741824) ++
          " of " ++ FormatUint (disk.Total d / 1073741824) ++
          " GB used (" ++ Sprintf_2_f (disk.UsedPercent d) ++ "%)")) w.
Proof.
  intros _ _ _ _ _ Hm Hd.
  split; [reflexivity|]. split; [reflexivity|]. split.
  { intros b Hb. unfold uint64_div.
    rewrite megabyteDiv_value, gigabyteDiv_value.
    pose proof (Z.div_mod b 1048576 ltac:(lia)) as H1.
    pose proof (Z.mod_pos_bound b 1048576 ltac:(lia)) as H2.
    pose proof (Z.div_mod b 1073741824 ltac:(lia)) as H3.
    pose proof (Z.mod_pos_bound b 1073741824 ltac:(lia)) as H4.
    repeat split; lia. }
  split; [apply Console_DisplayHostMemory_run|].
  split; [apply Console_DisplayDiskInformation_run|].
  split.
  - rewrite Bar_DisplayHostMemory_run, Hm. reflexivity.
  - rewrite Bar_DisplayDiskInformation_run. unfold BarText.diskCell.
    rewrite Hd. reflexivity.
Qed.

Lemma byte_counts_in_units_sample :
  let m := {| mem.Total := 2097152; mem.Available := 1048575;
              mem.Used := 0; mem.UsedPercent := float64_of_Z 50 |} in
  let d := Scenario.disk100 1073741823 in
  let sb := {| cpu := []; disk := Some d; host := None; mem := Some m |} in
  let w := Scenario.silent 80 in
  (in_uint64 (mem.Total m) /\ in_uint64 (mem.Available m) /\
   in_uint64 (disk.Total d) /\ in_uint64 (disk.Used d) /\
   in_uint64 (disk.Free d)) /\
  uint64_div 1048575 megabyteDiv = 0 /\
  uint64_div 2097152 megabyteDiv = 2 /\
  output (Console.DisplayHostMemory (Some m)) w =
    Some ("Total memory: 2 MB" ++ newline ++ "Free memory: 0 MB" ++ newline ++
          "Percentage used memory: 50.00 %" ++ newline) /\
  output (Console.DisplayDiskInformation (Some d)) w =
    Some ("Total disk space: 100 GB" ++ newline ++
          "Used disk space: 50 GB" ++ newline ++
          "Free disk space: 0 GB" ++ newline ++
          "Percentage disk space usage: 50.00 %" ++ newline) /\
  Bar.DisplayDiskInformation (R := Plain.renderer) sb w =
    Returned "Disk: 50 of 100 GB used (50%)  " w.
Proof.
  intros m d sb w.
  assert (H1 : in_uint64 (mem.Total m)) by (vm_compute; split; congruence).
  assert (H2 : in_uint64 (mem.Available m)) by (vm_compute; split; congruence).
  assert (H3 : in_uint64 (disk.Total d)) by (vm_compute; split; congruence).
  assert (H4 : in_uint64 (disk.Used d)) by (vm_compute; split; congruence).
  assert (H5 : in_uint64 (disk.Free d)) by (vm_compute; split; congruence).
  destruct (byte_counts_in_units (R := Plain.renderer) m d sb 40 w
              H1 H2 H3 H4 H5 eq_refl eq_refl)
    as (_ & _ & Hb & Hmem & Hdisk & _ & Hcell).
  split; [exact (conj H1 (conj H2 (conj H3 (conj H4 H5))))|].
  split; [reflexivity|]. split; [reflexivity|].
  split; [unfold output; rewrite Hmem; reflexivity|].
  split; [unfold output; rewrite Hdisk; reflexivity|].
  rewrite Hcell. reflexivity.
Defined.

(** The second line of the bar [BarInline.Render] prints shows the memory
    text computed from the memory record. *)
Lemma BarInline_Render_memory_text {R : lipgloss.Renderer} (sb : StatusBar)
    (h : host.InfoStat) (d : disk.UsageStat) (m : mem.VirtualMemoryStat)
    (w : World) :
  host sb = Some h -> disk sb = Some d -> mem sb = Some m ->
  exists firstLine memoryWidth diskCell,
    BarInline.Render sb w =
    Returned tt
      (write
         (Sprintln
            [lipgloss.JoinVertical lipgloss.Top
               [firstLine;
                lipgloss.JoinHorizontal lipgloss.Top
                  [lipgloss.Style_Render
                     (Styles.memoryStyle |> lipgloss.Style_Width memoryWidth)
                     ("Memory used: " ++
                      FormatUint
                        (uint64_sub (mem.Total m / 1048576)
                           (mem.Available m / 1048576)) ++
                      " of " ++ FormatUint (mem.Total m / 1048576) ++
                      " MB (" ++ Sprintf_2_f (mem.UsedPercent m) ++ "% used)");
                   diskCell]]]) w).
Proof.
  intros Hh Hd Hm.
  rewrite (BarInline_Render_run sb h d m w Hh Hd Hm).
  unfold BarText.inline_layout. eexists _, _, _. reflexivity.
Qed.

(** C5.  In the status bar the used memory is computed, not read: it is
    the total in megabytes minus the available memory in megabytes, each
    truncated before the subtraction, in [uint64] arithmetic; whenever the
    available megabytes do not exceed the total it is their difference.
    The provider's own count of used bytes has no part in it. *)
Theorem used_memory_is_derived {R : lipgloss.Renderer} (sb : StatusBar)
    (m : mem.VirtualMemoryStat) (width : Z) (w : World) :
  mem sb = Some m ->
  in_uint64 (mem.Total m) -> in_uint64 (mem.Available m) ->
  let total_MB := mem.Total m / 1048576 in
  let available_MB := mem.Available m / 1048576 in
  let used_MB := uint64_sub total_MB available_MB in
  (available_MB <= total_MB -> used_MB = total_MB - available_MB) /\
  Bar.DisplayHostMemory sb width w =
    Returned
      (lipgloss.Style_Render
         (Styles.memoryStyle |> lipgloss.Style_Width width)
         ("Memory: " ++ FormatUint used_MB ++ " of " ++ FormatUint total_MB ++
          " MB used (" ++ Sprintf_2_f (mem.UsedPercent m) ++ "%)")) w /\
  (forall h d, host sb = Some h -> disk sb = Some d ->
   exists firstLine memoryWidth diskCell,
     BarInline.Render sb w =
     Returned tt
       (write
          (Sprintln
             [lipgloss.JoinVertical lipgloss.Top
                [firstLine;
                 lipgloss.JoinHorizontal lipgloss.Top
                   [lipgloss.Style_Render
                      (Styles.memoryStyle |> lipgloss.Style_Width memoryWidth)
                      ("Memory used: " ++ FormatUint used_MB ++ " of " ++
                       FormatUint total_MB ++ " MB (" ++
                       Sprintf_2_f (mem.UsedPercent m) ++ "% used)");
                    diskCell]]]) w)) /\
  (forall used,
     Bar.DisplayHostMemory
       {| cpu := cpu sb; disk := disk sb; host := host sb;
          mem := Some {| mem.Total := mem.Total m;
                         mem.Available := mem.Available m;
                         mem.Used := used;
                         mem.UsedPercent := mem.UsedPercent m |} |} width w
     = Bar.DisplayHostMemory sb width w).
Proof.
  intros Hm Ht Ha total_MB available_MB used_MB.
  split; [|split; [|split]].
  - intros Hle. apply uint64_sub_no_wrap.
    + pose proof (megabytes_bound _ Ht) as Hb.
      unfold in_uint64, uint64_modulus. fold total_MB in Hb. lia.
    + pose proof (megabytes_bound _ Ha) as Hb. fold available_MB in Hb. lia.
  - rewrite Bar_DisplayHostMemory_run, Hm. reflexivity.
  - intros h d Hh Hd.
    exact (BarInline_Render_memory_text sb h d m w Hh Hd Hm).
  - intros used. rewrite !Bar_DisplayHostMemory_run, Hm. reflexivity.
Qed.

Lemma used_memory_is_derived_sample :
  let m := Scenario.memory 6442450944 in
  let sb := {| cpu := []; disk := None; host := None; mem := Some m |} in
  let w := Scenario.silent 80 in
  (mem sb = Some m /\ in_uint64 (mem.Total m) /\ in_uint64 (mem.Available m)) /\
  mem.Total m / 1048576 = 8192 /\
  mem.Available m / 1048576 = 2048 /\
  uint64_sub (mem.Total m / 1048576) (mem.Available m / 1048576) = 6144 /\
  Bar.DisplayHostMemory (R := Plain.renderer) sb 40 w =
    Returned "Memory: 6144 of 8192 MB used (75%)      " w.
Proof.
  intros m sb w.
  assert (Ht : in_uint64 (mem.Total m)) by (vm_compute; split; congruence).
  assert (Ha : in_uint64 (mem.Available m)) by (vm_compute; split; congruence).
  destruct (used_memory_is_derived (R := Plain.renderer) sb m 40 w
              eq_refl Ht Ha) as (Hsub & Hcell & _ & _).
  split; [exact (conj eq_refl (conj Ht Ha))|].
  split; [reflexivity|]. split; [reflexivity|].
  split; [rewrite Hsub; [reflexivity | vm_compute; congruence]|].
  rewrite Hcell. reflexivity.
Defined.

(** C10.  When a memory record reports more available than total
    megabytes, the subtraction of the status bar wraps around: the used
    memory shown is 2^64 minus the excess, a number of twenty digits that
    is larger than any count of megabytes, and nothing in either
    status-bar program prevents it. *)
Theorem used_memory_wraps_around {R : lipgloss.Renderer} (sb : StatusBar)
    (m : mem.VirtualMemoryStat) (width : Z) (w : World) :
  mem sb = Some m ->
  in_uint64 (mem.Total m) -> in_uint64 (mem.Available m) ->
  mem.Total m / 1048576 < mem.Available m / 1048576 ->
  let total_MB := mem.Total m / 1048576 in
  let available_MB := mem.Available m / 1048576 in
  let shown := 2 ^ 64 - (available_MB - total_MB) in
  uint64_sub total_MB available_MB = shown /\
  2 ^ 64 - 2 ^ 44 < shown < 2 ^ 64 /\
  total_MB < shown /\
  Bar.DisplayHostMemory sb width w =
    Returned
      (lipgloss.Style_Render
         (Styles.memoryStyle |> lipgloss.Style_Width width)
         ("Memory: " ++ FormatUint shown ++ " of " ++ FormatUint total_MB ++
          " MB used (" ++ Sprintf_2_f (mem.UsedPercent m) ++ "%)")) w /\
  (forall h d, host sb = Some h -> disk sb = Some d ->
   exists firstLine memoryWidth diskCell,
     BarInline.Render sb w =
     Returned tt
       (write
          (Sprintln
             [lipgloss.JoinVertical lipgloss.Top
                [firstLine;
                 lipgloss.JoinHorizontal lipgloss.Top
                   [lipgloss.Style_Render
                      (Styles.memoryStyle |> lipgloss.Style_Width memoryWidth)
                      ("Memory used: " ++ FormatUint shown ++ " of " ++
                       FormatUint total_MB ++ " MB (" ++
                       Sprintf_2_f (mem.UsedPercent m) ++ "% used)");
                    diskCell]]]) w)).
Proof.
  intros Hm Ht Ha Hlt total_MB available_MB shown.
  pose proof (megabytes_bound _ Ht) as Hbt. fold total_MB in Hbt.
  pose proof (megabytes_bound _ Ha) as Hba. fold available_MB in Hba.
  assert (Hsub : uint64_sub total_MB available_MB = shown).
  { unfold shown. change (2 ^ 64) with uint64_modulus.
    apply uint64_sub_wraps.
    - unfold total_MB, available_MB. lia.
    - unfold in_uint64, uint64_modulus. lia. }
  split; [exact Hsub|].
  split; [unfold shown, total_MB, available_MB in *; lia|].
  split; [unfold shown, total_MB, available_MB in *; lia|].
  split.
  - rewrite Bar_DisplayHostMemory_run, Hm. unfold BarText.memoryInformation.
    fold total_MB available_MB. now rewrite Hsub.
  - intros h d Hh Hd.
    destruct (BarInline_Render_memory_text sb h d m w Hh Hd Hm)
      as (l1 & mw & dc & E).
    exists l1, mw, dc. rewrite E. fold total_MB available_MB.
    now rewrite Hsub.
Qed.

Lemma used_memory_wraps_around_sample :
  let m := Scenario.overcommitted in
  let sb := {| cpu := []; disk := None; host := None; mem := Some m |} in
  let w := Scenario.silent 80 in
  (mem sb = Some m /\ in_uint64 (mem.Total m) /\ in_uint64 (mem.Available m) /\
   mem.Total m / 1048576 < mem.Available m / 1048576) /\
  Bar.DisplayHostMemory (R := Plain.renderer) sb 0 w =
    Returned "Memory: 18446744073709551615 of 1 MB used ( 0%)  " w.
Proof.
  intros m sb w.
  assert (Ht : in_uint64 (mem.Total m)) by (vm_compute; split; congruence).
  assert (Ha : in_uint64 (mem.Available m)) by (vm_compute; split; congruence).
  assert (Hlt : mem.Total m / 1048576 < mem.Available m / 1048576)
    by (vm_compute; reflexivity).
  destruct (used_memory_wraps_around (R := Plain.renderer) sb m 0 w
              eq_refl Ht Ha Hlt) as (_ & _ & _ & Hcell & _).
  split; [exact (conj eq_refl (conj Ht (conj Ha Hlt)))|].
  rewrite Hcell. reflexivity.
Defined.

(** C7.  A finite percentage [x] is written with exactly two decimals on
    the console ([FormatFloat] with precision 2, in the memory, disk and
    per-core lines) and with none in the cells of the status bar (the
    verb [%2.f]).  Both writings show an integer nearest to the scaled
    value, so they round; they do not cut decimals off: 87.456 becomes
    87.46 on the console, where cutting would give 87.45, and 87% in the
    bar. *)
Theorem percent_decimals (x : float64) :
  is_finite x = true ->
  let sign := if sign_bit x then "-" else "" in
  exists hundredths units : Z,
    nearest_scaled x 2 hundredths /\
    nearest_scaled x 0 units /\
    (* the console *)
    FormatFloat x 2 =
      sign ++ FormatUint (hundredths / 100) ++ "." ++
      zero_pad 2 (FormatUint (hundredths mod 100)) /\
    String.length (zero_pad 2 (FormatUint (hundredths mod 100))) = 2%nat /\
    all_chars is_digit (zero_pad 2 (FormatUint (hundredths mod 100))) = true /\
    (forall m w, mem.UsedPercent m = x ->
       exists before,
         Console.DisplayHostMemory (Some m) w =
         Returned tt
           (write (before ++ "Percentage used memory: " ++ FormatFloat x 2 ++
                   " %" ++ newline) w)) /\
    (forall d w, disk.UsedPercent d = x ->
       exists before,
         Console.DisplayDiskInformation (Some d) w =
         Returned tt
           (write (before ++ "Percentage disk space usage: " ++
                   FormatFloat x 2 ++ " %" ++ newline) w)) /\
    (forall index,
       Console.core_line index x =
       tab ++ "CPU [" ++ Itoa index ++ "]: " ++ FormatFloat x 2 ++ " %" ++
       newline) /\
    (* the status bar *)
    Sprintf_2_f x = pad_left 2 (sign ++ FormatUint units) /\
    all_chars is_digit (FormatUint units) = true /\
    (forall (R : lipgloss.Renderer) sb m width w,
       mem sb = Some m -> mem.UsedPercent m = x ->
       exists before,
         Bar.DisplayHostMemory sb width w =
         Returned
           (lipgloss.Style_Render
              (Styles.memoryStyle |> lipgloss.Style_Width width)
              (before ++ " MB used (" ++ Sprintf_2_f x ++ "%)")) w) /\
    (forall (R : lipgloss.Renderer) sb d w,
       disk sb = Some d -> disk.UsedPercent d = x ->
       exists before,
         Bar.DisplayDiskInformation sb w =
         Returned
           (lipgloss.Style_Render
              (Styles.diskStyle |> lipgloss.Style_Align lipgloss.Right)
              (before ++ " GB used (" ++ Sprintf_2_f x ++ "%)")) w) /\
    (* the example *)
    FormatFloat (float64_of_fraction 87456 1000) 2 = "87.46" /\
    truncated_scaled (float64_of_fraction 87456 1000) 2 = 8745 /\
    Sprintf_2_f (float64_of_fraction 87456 1000) ++ "%" = "87%".
Proof.
  intros Hx sign.
  exists (rounded x 2), (rounded x 0).
  assert (Hrange : 0 <= rounded x 2 mod 100 < 100)
    by (apply Z.mod_pos_bound; lia).
  destruct (two_decimals _ Hrange) as [Hlen Hdig].
  split; [now apply rounded_nearest|].
  split; [now apply rounded_nearest|].
  split; [rewrite FormatFloat_finite by exact Hx; apply fixed_text_two|].
  split; [exact Hlen|]. split; [exact Hdig|].
  split.
  { intros m w <-. rewrite Console_DisplayHostMemory_run.
    unfold ConsoleText.memory_lines.
    exists ("Total memory: " ++ FormatUint (mem.Total m / 1048576) ++ " MB" ++
            newline ++ "Free memory: " ++
            FormatUint (mem.Available m / 1048576) ++ " MB" ++ newline).
    do 2 f_equal. same_text. }
  split.
  { intros d w <-. rewrite Console_DisplayDiskInformation_run.
    unfold ConsoleText.disk_lines.
    exists ("Total disk space: " ++ FormatUint (disk.Total d / 1073741824) ++
            " GB" ++ newline ++ "Used disk space: " ++
            FormatUint (disk.Used d / 1073741824) ++ " GB" ++ newline ++
            "Free disk space: " ++ FormatUint (disk.Free d / 1073741824) ++
            " GB" ++ newline).
    do 2 f_equal. same_text. }
  split; [reflexivity|].
  split.
  { unfold Sprintf_2_f. rewrite FormatFloat_finite by exact Hx.
    now rewrite fixed_text_none. }
  split; [apply FormatUint_digits|].
  split.
  { intros R sb m width w Hm <-. rewrite Bar_DisplayHostMemory_run, Hm.
    unfold BarText.memoryInformation.
    exists ("Memory: " ++
            FormatUint (uint64_sub (mem.Total m / 1048576)
                          (mem.Available m / 1048576)) ++
            " of " ++ FormatUint (mem.Total m / 1048576)).
    do 2 f_equal. same_text. }
  split.
  { intros R sb d w Hd <-. rewrite Bar_DisplayDiskInformation_run.
    unfold BarText.diskCell, BarText.diskInformation. rewrite Hd.
    exists ("Disk: " ++ FormatUint (disk.Used d / 1073741824) ++
            " of " ++ FormatUint (disk.Total d / 1073741824)).
    do 2 f_equal. same_text. }
  split; [vm_compute; reflexivity|].
  split; vm_compute; reflexivity.
Qed.

Lemma percent_decimals_sample :
  is_finite (float64_of_fraction 87456 1000) = true /\
  exists hundredths units : Z,
    nearest_scaled (float64_of_fraction 87456 1000) 2 hundredths /\
    nearest_scaled (float64_of_fraction 87456 1000) 0 units /\
    "87.46" =
      FormatUint (hundredths / 100) ++ "." ++
      zero_pad 2 (FormatUint (hundredths mod 100)) /\
    "87" = pad_left 2 (FormatUint units).
Proof.
  split; [reflexivity|].
  destruct (percent_decimals (float64_of_fraction 87456 1000) eq_refl)
    as (h & u & Hh & Hu & Hfmt & _ & _ & _ & _ & _ & Hbar & _).
  exists h, u.
  split; [exact Hh|]. split; [exact Hu|].
  split; [exact Hfmt | exact Hbar].
Defined.

Lemma int_sub_exact (a b : Z) : in_int (a - b) -> int_sub a b = a - b.
Proof. intros H. unfold int_sub. now apply wrap_int_small. Qed.

(** C8.  [Render] gives the centred host cell the width
    [terminalWidth - width(platformCell) - width(cpuCell)] and the memory
    cell the width [terminalWidth - width(diskCell)], the widths being
    those of the rendered cells.  The subtractions are those of Go's
    [int]; whenever their results are representable, which they are for
    any real terminal, the widths given are exactly these differences,
    negative ones included: nothing floors them at zero.  This holds for
    the [Render] built from the Display helpers, whatever is absent from
    the status bar, and for the [Render] that builds the cells itself,
    when the three records are present. *)
Theorem cell_widths {R : lipgloss.Renderer} (pkg : Bar.Package)
    (sb : StatusBar) (w : World) :
  let width := lipgloss.Width in
  let platformCell :=
    lipgloss.Style_Render Styles.highlightLeftStyle
      (BarText.platformInformation (host sb)) in
  let cpuCell :=
    lipgloss.Style_Render Styles.highlightRightStyle
      (BarText.cpuInformation (cpu sb)) in
  let diskCell :=
    lipgloss.Style_Render
      (Styles.diskStyle |> lipgloss.Style_Align lipgloss.Right)
      (BarText.diskInformation (disk sb)) in
  let bar terminalWidth diskCell memoryInformation :=
    let hostWidth :=
      int_sub (int_sub terminalWidth (width platformCell)) (width cpuCell) in
    let memoryWidth := int_sub terminalWidth (width diskCell) in
    lipgloss.JoinVertical lipgloss.Top
      [ lipgloss.JoinHorizontal lipgloss.Top
          [ platformCell;
            lipgloss.Style_Render
              (Styles.generalTextStyle |> lipgloss.Style_Width hostWidth
               |> lipgloss.Style_Align lipgloss.Center)
              (BarText.hostInformation (host sb));
            cpuCell ];
        lipgloss.JoinHorizontal lipgloss.Top
          [ lipgloss.Style_Render
              (Styles.memoryStyle |> lipgloss.Style_Width memoryWidth)
              memoryInformation;
            diskCell ] ] in
  Bar.Render pkg sb w =
    Returned tt
      (write
         (Sprintln [bar (Bar.terminalWidth pkg) diskCell
                      (BarText.memoryInformation (mem sb))]) w) /\
  (forall h d m,
     host sb = Some h -> disk sb = Some d -> mem sb = Some m ->
     BarInline.Render sb w =
       Returned tt
         (write
            (Sprintln [bar (term_columns w) (BarText.inline_diskCell d)
                         (BarText.inline_memoryInformation m)]) w)) /\
  (forall terminalWidth,
     in_int (terminalWidth - width platformCell) ->
     in_int (terminalWidth - width platformCell - width cpuCell) ->
     int_sub (int_sub terminalWidth (width platformCell)) (width cpuCell) =
     terminalWidth - width platformCell - width cpuCell) /\
  (forall terminalWidth cell,
     in_int (terminalWidth - width cell) ->
     int_sub terminalWidth (width cell) = terminalWidth - width cell).
Proof.
  intros width platformCell cpuCell diskCell bar.
  split; [|split; [|split]].
  - rewrite Bar_Render_run. reflexivity.
  - intros h d m Hh Hd Hm.
    rewrite (BarInline_Render_run sb h d m w Hh Hd Hm).
    unfold BarText.inline_layout, bar, platformCell, cpuCell, width,
      BarText.platformCell, BarText.cpuCell.
    now rewrite Hh.
  - intros tw H1 H2. now rewrite (int_sub_exact _ _ H1), (int_sub_exact _ _ H2).
  - intros tw cell H. now apply int_sub_exact.
Qed.

Lemma cell_widths_narrow_terminal :
  let sb := snapshot (Scenario.world 53687091200 10) in
  let width := lipgloss.Width (Renderer := Plain.renderer) in
  let platformCell := BarText.platformCell (R := Plain.renderer) sb in
  let cpuCell := BarText.cpuCell (R := Plain.renderer) sb in
  let diskCell := BarText.diskCell (R := Plain.renderer) sb in
  (in_int (10 - width platformCell) /\
   in_int (10 - width platformCell - width cpuCell) /\
   in_int (10 - width diskCell)) /\
  width platformCell = 15 /\ width cpuCell = 19 /\ width diskCell = 31 /\
  int_sub (int_sub 10 (width platformCell)) (width cpuCell) = -24 /\
  int_sub 10 (width diskCell) = -21.
Proof.
  intros sb width platformCell cpuCell diskCell.
  assert (H1 : in_int (10 - width platformCell))
    by (vm_compute; split; congruence).
  assert (H2 : in_int (10 - width platformCell - width cpuCell))
    by (vm_compute; split; congruence).
  assert (H3 : in_int (10 - width diskCell))
    by (vm_compute; split; congruence).
  destruct (cell_widths (R := Plain.renderer) {| Bar.terminalWidth := 10 |}
              sb (Scenario.world 53687091200 10))
    as (_ & _ & Hhost & Hmem).
  split; [exact (conj H1 (conj H2 H3))|].
  split; [reflexivity|]. split; [reflexivity|]. split; [reflexivity|].
  split.
  - transitivity (10 - width platformCell - width cpuCell);
      [exact (Hhost 10 H1 H2) | reflexivity].
  - transitivity (10 - width diskCell);
      [exact (Hmem 10 diskCell H3) | reflexivity].
Defined.

(** [BarInline.main] panics as soon as one of the three records is
    missing from the status bar it built. *)
Lemma BarInline_program_panics {R : lipgloss.Renderer} (w : World) :
  host (snapshot w) = None \/ disk (snapshot w) = None \/
  mem (snapshot w) = None ->
  BarInline.program w = Panicked nil_dereference w.
Proof.
  intros H. unfold BarInline.program, BarInline.main, bind.
  rewrite build_run. now apply BarInline_Render_nil.
Qed.

(** [Bar.Render] returns, whatever the status bar lacks. *)
Lemma Bar_Render_returns {R : lipgloss.Renderer} (pkg : Bar.Package)
    (sb : StatusBar) (w : World) :
  returns (Bar.Render pkg sb) w.
Proof. unfold returns. rewrite Bar_Render_run. eauto. Qed.

(** C2.  On a machine whose host query fails the status bar is built
    without a host record.  The [Render] made of the Display helpers
    tests every record before it reads it, returns, and prints the bar
    with blank host texts; the [Render] that builds its cells itself reads
    the platform through the nil pointer and the program panics before it
    prints anything. *)
Theorem render_without_host_record :
  let w := Scenario.hostless 80 in
  host (snapshot w) = None /\
  Bar.program (R := Plain.renderer) w =
    Returned tt
      (write (Sprintln [BarText.layout (R := Plain.renderer) 80 (snapshot w)]) w) /\
  BarText.platformInformation (R := Plain.renderer) (host (snapshot w)) = " " /\
  BarText.hostInformation (host (snapshot w)) = " " /\
  BarInline.program (R := Plain.renderer) w = Panicked nil_dereference w.
Proof.
  intros w. split; [reflexivity|].
  split; [apply Bar_program_run|].
  split; [reflexivity|]. split; [reflexivity|].
  apply BarInline_program_panics. left. reflexivity.
Qed.

(** C3.  A query that fails leaves its field of the status bar at the
    zero value and its section of the console output empty; no error
    reaches the caller, nothing is printed about it, and the other fields
    and sections are what their own queries decide.  The console program
    and the status bar built from the Display helpers return on every
    machine, also on one where every query fails. *)
Theorem failed_queries_are_isolated {R : lipgloss.Renderer} (w : World) :
  len (list_of (cpu_Percent w)) <= int_max ->
  (* the aggregator, call by call and as a whole *)
  (forall sb,
     WithHostInformation sb w =
       Returned
         match host_Info w with
         | Success h =>
             {| cpu := cpu sb; disk := disk sb; host := Some h; mem := mem sb |}
         | Failure _ => sb
         end w /\
     WithCPUInformation sb w =
       Returned
         match cpu_Info w with
         | Success l =>
             {| cpu := l; disk := disk sb; host := host sb; mem := mem sb |}
         | Failure _ => sb
         end w /\
     WithMemoryInformation sb w =
       Returned
         match mem_VirtualMemory w with
         | Success m =>
             {| cpu := cpu sb; disk := disk sb; host := host sb; mem := Some m |}
         | Failure _ => sb
         end w /\
     WithDiskInformation sb w =
       Returned
         match disk_Usage w "/" with
         | Success d =>
             {| cpu := cpu sb; disk := Some d; host := host sb; mem := mem sb |}
         | Failure _ => sb
         end w) /\
  build w =
    Returned
      {| cpu := match cpu_Info w with Success l => l | Failure _ => [] end;
         disk := match disk_Usage w "/" with
                 | Success d => Some d | Failure _ => None end;
         host := match host_Info w with
                 | Success h => Some h | Failure _ => None end;
         mem := match mem_VirtualMemory w with
                | Success m => Some m | Failure _ => None end |} w /\
  (* the console *)
  Console.main w =
    Returned tt
      (write
         (match host_Info w with
          | Success h => ConsoleText.host_lines h | Failure _ => "" end ++
          match cpu_Info w with
          | Success l => ConsoleText.cpu_line l | Failure _ => "" end ++
          match mem_VirtualMemory w with
          | Success m => ConsoleText.memory_lines m | Failure _ => "" end ++
          match disk_Usage w "/" with
          | Success d => ConsoleText.disk_lines d | Failure _ => "" end ++
          match cpu_Percent w with
          | Success p => ConsoleText.cores_section p | Failure _ => "" end)
         w) /\
  (* the status bar *)
  Bar.program w =
    Returned tt
      (write (Sprintln [BarText.layout (term_columns w) (snapshot w)]) w) /\
  (* every query fails *)
  (forall e1 e2 e3 e4 e5,
     host_Info w = Failure e1 -> cpu_Info w = Failure e2 ->
     mem_VirtualMemory w = Failure e3 -> disk_Usage w "/" = Failure e4 ->
     cpu_Percent w = Failure e5 ->
     Console.main w = Returned tt w /\
     Bar.program w =
       Returned tt
         (write (Sprintln [BarText.layout (term_columns w) NewStatusBar]) w)).
Proof.
  intros Hlen.
  assert (Hmain := Console_main_run w Hlen).
  assert (Hbar := Bar_program_run w).
  split; [|split; [|split; [|split]]].
  - intros sb.
    rewrite WithHostInformation_run, WithCPUInformation_run,
      WithMemoryInformation_run, WithDiskInformation_run. auto.
  - rewrite build_run. reflexivity.
  - exact Hmain.
  - exact Hbar.
  - intros e1 e2 e3 e4 e5 H1 H2 H3 H4 H5.
    rewrite Hmain, Hbar. unfold snapshot.
    rewrite H1, H2, H3, H4, H5. simpl. split.
    + now rewrite write_nil.
    + reflexivity.
Qed.

Lemma failed_queries_are_isolated_silent :
  len (list_of (cpu_Percent (Scenario.silent 80))) <= int_max /\
  build (Scenario.silent 80) = Returned NewStatusBar (Scenario.silent 80) /\
  Console.main (Scenario.silent 80) = Returned tt (Scenario.silent 80) /\
  output (Bar.program (R := Plain.renderer)) (Scenario.silent 80) =
    Some (repeat_string " " 80 ++ newline ++
          "Memory: 0 of 0 MB used ( 0%)" ++ repeat_string " " 24 ++
          "Disk: 0 of 0 GB used ( 0%)  " ++ newline).
Proof.
  assert (H : len (list_of (cpu_Percent (Scenario.silent 80))) <= int_max)
    by (vm_compute; discriminate).
  destruct (failed_queries_are_isolated (R := Plain.renderer)
              (Scenario.silent 80) H) as (_ & Hbuild & _ & _ & Hall).
  destruct (Hall _ _ _ _ _ eq_refl eq_refl eq_refl eq_refl eq_refl)
    as [Hmain Hbar].
  split; [exact H|]. split; [exact Hbuild|]. split; [exact Hmain|].
  unfold output. rewrite Hbar. reflexivity.
Defined.

(** The scenario as it is written gives the disk a total, a used count
    and a percentage, and no free count.  With the free count at the zero
    value of the field the console prints [Free disk space: 0 GB]: the
    line comes from the record's own free count, not from total minus
    used. *)
Lemma console_scenario_without_free_count :
  output Console.main (Scenario.world 0 80) =
    Some (unlines
            [ "Hostname: box1";
              "Operating System: ubuntu 22.04 (x86_64)";
              "Model Name: Gen9 Family:  Speed: 3200.00 MHz";
              "Total memory: 8192 MB";
              "Free memory: 2048 MB";
              "Percentage used memory: 75.00 %";
              "Total disk space: 100 GB";
              "Used disk space: 50 GB";
              "Free disk space: 0 GB";
              "Percentage disk space usage: 50.00 %" ]) /\
  (forall out, output Console.main (Scenario.world 0 80) = Some out ->
     has_line out "Free disk space: 50 GB" = false) /\
  output Console.main (Scenario.world 0 80) <>
    Some (unlines Scenario.expected_lines).
Proof.
  assert (E : output Console.main (Scenario.world 0 80) =
              Some (unlines
                      [ "Hostname: box1";
                        "Operating System: ubuntu 22.04 (x86_64)";
                        "Model Name: Gen9 Family:  Speed: 3200.00 MHz";
                        "Total memory: 8192 MB";
                        "Free memory: 2048 MB";
                        "Percentage used memory: 75.00 %";
                        "Total disk space: 100 GB";
                        "Used disk space: 50 GB";
                        "Free disk space: 0 GB";
                        "Percentage disk space usage: 50.00 %" ]))
    by (vm_compute; reflexivity).
  split; [exact E|]. split.
  - intros out H. rewrite E in H. injection H as <-. vm_compute. reflexivity.
  - rewrite E. vm_compute. discriminate.
Qed.

(** C6.  On the machine of the scenario, its disk reporting a free count
    of 50 GB (any count from 53687091200 up to, not including,
    54760833024 bytes), the console prints the ten lines of the scenario,
    in their order, each ended by a newline, and then the per-core
    section; when the per-core query fails, the ten lines are the whole
    output. *)
Theorem console_scenario (w : World) (used free : Z) :
  host_Info w = Success Scenario.box1 ->
  cpu_Info w = Success [Scenario.gen9] ->
  mem_VirtualMemory w = Success (Scenario.memory used) ->
  disk_Usage w "/" = Success (Scenario.disk100 free) ->
  53687091200 <= free < 54760833024 ->
  len (list_of (cpu_Percent w)) <= int_max ->
  Console.main w =
    Returned tt
      (write
         (unlines Scenario.expected_lines ++
          match cpu_Percent w with
          | Success p => ConsoleText.cores_section p
          | Failure _ => ""
          end) w) /\
  (forall e, cpu_Percent w = Failure e ->
     Console.main w = Returned tt (write (unlines Scenario.expected_lines) w) /\
     lines (unlines Scenario.expected_lines) = Scenario.expected_lines).
Proof.
  intros Hh Hc Hm Hd Hfree Hlen.
  assert (Hgb : free / 1073741824 = 50).
  { symmetry. apply Z.div_unique with (r := free - 53687091200); lia. }
  assert (Hmain :
    Console.main w =
    Returned tt
      (write
         (unlines Scenario.expected_lines ++
          match cpu_Percent w with
          | Success p => ConsoleText.cores_section p
          | Failure _ => ""
          end) w)).
  { rewrite (Console_main_run w Hlen), Hh, Hc, Hm, Hd.
    unfold ConsoleText.section_of at 1 2 3 4.
    unfold ConsoleText.disk_lines, Scenario.disk100.
    cbn [disk.Total disk.Used disk.Free disk.UsedPercent].
    rewrite Hgb.
    reflexivity. }
  split; [exact Hmain|].
  intros e He. rewrite Hmain, He, append_nil_r.
  split; reflexivity.
Qed.

Lemma console_scenario_sample :
  (host_Info (Scenario.world 53687091200 80) = Success Scenario.box1 /\
   cpu_Info (Scenario.world 53687091200 80) = Success [Scenario.gen9] /\
   mem_VirtualMemory (Scenario.world 53687091200 80) =
     Success (Scenario.memory 6442450944) /\
   disk_Usage (Scenario.world 53687091200 80) "/" =
     Success (Scenario.disk100 53687091200) /\
   53687091200 <= 53687091200 < 54760833024 /\
   len (list_of (cpu_Percent (Scenario.world 53687091200 80))) <= int_max) /\
  output Console.main (Scenario.world 53687091200 80) =
    Some (unlines Scenario.expected_lines).
Proof.
  assert (Hfree : 53687091200 <= 53687091200 < 54760833024) by lia.
  assert (Hlen : len (list_of (cpu_Percent (Scenario.world 53687091200 80)))
                 <= int_max) by (vm_compute; discriminate).
  destruct (console_scenario (Scenario.world 53687091200 80) 6442450944
              53687091200 eq_refl eq_refl eq_refl eq_refl Hfree Hlen)
    as [_ Hfail].
  destruct (Hfail _ eq_refl) as [Hmain _].
  split.
  - repeat (split; [reflexivity|]). split; [exact Hfree | exact Hlen].
  - unfold output. rewrite Hmain. reflexivity.
Defined.

Lemma Bar_run_resized_run {R : lipgloss.Renderer} (columns : Z) (w : World) :
  Bar_run_resized columns w =
  Returned tt
    (write (Sprintln [BarText.layout (term_columns w) (snapshot w)])
       (resize columns w)).
Proof.
  unfold Bar_run_resized, Bar.package_init, term_GetSize, user_resizes.
  unfold bind at 1 2. unfold ret at 1. unfold bind at 1.
  rewrite build_run. unfold bind at 1.
  now rewrite Bar_Render_run.
Qed.

Lemma BarInline_run_resized_run {R : lipgloss.Renderer} (columns : Z)
    (w : World) (h : host.InfoStat) (d : disk.UsageStat)
    (m : mem.VirtualMemoryStat) :
  host_Info w = Success h -> disk_Usage w "/" = Success d ->
  mem_VirtualMemory w = Success m ->
  BarInline_run_resized columns w =
  Returned tt
    (write (Sprintln [BarText.inline_layout columns (snapshot w) h d m])
       (resize columns w)).
Proof.
  intros Hh Hd Hm.
  unfold BarInline_run_resized, user_resizes.
  unfold bind at 1. rewrite build_run. unfold bind at 1.
  rewrite (BarInline_Render_run (snapshot w) h d m);
    [reflexivity | | |]; unfold snapshot; cbn [host disk mem];
    [rewrite Hh | rewrite Hd | rewrite Hm]; reflexivity.
Qed.

(** X14.  Where each [Render] takes the terminal width from.  The
    [Render] that builds its cells itself asks the terminal as its first
    step, so its width is the column count at the moment it runs; the
    [Render] made of the Display helpers reads the package-level
    [terminalWidth], which holds the column count the terminal had when
    the package was initialised, whatever the terminal is resized to
    afterwards. *)
Lemma terminal_width_in_render {R : lipgloss.Renderer} (columns : Z)
    (w : World) (h : host.InfoStat) (d : disk.UsageStat)
    (m : mem.VirtualMemoryStat) :
  host_Info w = Success h -> disk_Usage w "/" = Success d ->
  mem_VirtualMemory w = Success m ->
  (forall w', host_Info w' = Success h -> disk_Usage w' "/" = Success d ->
     mem_VirtualMemory w' = Success m ->
     BarInline.Render (snapshot w') w' =
       Returned tt
         (write
            (Sprintln
               [BarText.inline_layout (term_columns w') (snapshot w') h d m])
            w')) /\
  BarInline_run_resized columns w =
    Returned tt
      (write (Sprintln [BarText.inline_layout columns (snapshot w) h d m])
         (resize columns w)) /\
  (forall pkg sb w',
     Bar.Render pkg sb w' =
       Returned tt
         (write (Sprintln [BarText.layout (Bar.terminalWidth pkg) sb]) w')) /\
  Bar.package_init w = Returned {| Bar.terminalWidth := term_columns w |} w /\
  Bar_run_resized columns w =
    Returned tt
      (write (Sprintln [BarText.layout (term_columns w) (snapshot w)])
         (resize columns w)).
Proof.
  intros Hh Hd Hm.
  split; [|split; [|split; [|split]]].
  - intros w' Hh' Hd' Hm'.
    apply BarInline_Render_run; unfold snapshot; cbn [host disk mem];
      [rewrite Hh' | rewrite Hd' | rewrite Hm']; reflexivity.
  - now apply BarInline_run_resized_run.
  - intros pkg sb w'. apply Bar_Render_run.
  - reflexivity.
  - apply Bar_run_resized_run.
Qed.

(** C9.  A terminal of 80 columns is widened to 120 after the program
    was loaded and before [Render] runs.  The program whose [Render] asks
    the terminal for its size prints the bar of 120 columns, the width at
    the moment [Render] runs.  The program whose [terminalWidth] is a
    package-level variable prints the bar of 80 columns: the width in its
    subtractions is the one read at load, and the resize does not show. *)
Theorem width_read_at_load_is_stale :
  let w := Scenario.world 53687091200 80 in
  term_columns (resize 120 w) = 120 /\
  output (BarInline_run_resized (R := Plain.renderer) 120) w =
    Some (Sprintln
            [BarText.inline_layout (R := Plain.renderer) 120 (snapshot w)
               Scenario.box1 (Scenario.disk100 53687091200)
               (Scenario.memory 6442450944)]) /\
  output (Bar_run_resized (R := Plain.renderer) 120) w =
    Some (Sprintln [BarText.layout (R := Plain.renderer) 80 (snapshot w)]) /\
  output (Bar_run_resized (R := Plain.renderer) 120) w <>
    Some (Sprintln [BarText.layout (R := Plain.renderer) 120 (snapshot w)]).
Proof.
  intros w. split; [reflexivity|].
  unfold output.
  rewrite (BarInline_run_resized_run 120 w Scenario.box1
             (Scenario.disk100 53687091200) (Scenario.memory 6442450944)
             eq_refl eq_refl eq_refl).
  rewrite Bar_run_resized_run.
  split; [reflexivity|]. split; [reflexivity|].
  vm_compute. discriminate.
Qed.

(* ===================================================================== *)
(** * Further properties: the lines of the console output                *)
(* ===================================================================== *)

Lemma all_chars_app (p : ascii -> bool) (a b : string) :
  all_chars p (a ++ b) = all_chars p a && all_chars p b.
Proof.
  induction a as [|c a IH]; simpl; [reflexivity|].
  now rewrite IH, andb_assoc.
Qed.

Lemma all_chars_weaken (p q : ascii -> bool) (s : string) :
  (forall c, p c = true -> q c = true) ->
  all_chars p s = true -> all_chars q s = true.
Proof.
  intros Hpq. induction s as [|c s IH]; simpl; [reflexivity|].
  intros H. apply andb_prop in H. destruct H as [Hc Hs].
  now rewrite (Hpq c Hc), IH.
Qed.

Lemma digit_not_newline (c : ascii) :
  is_digit c = true -> not_newline c = true.
Proof.
  unfold is_digit, not_newline. intros H.
  destruct (Ascii.eqb_spec c (ascii_of_nat 10)) as [->|]; [|reflexivity].
  discriminate H.
Qed.

Lemma digits_one_line (s : string) :
  all_chars is_digit s = true -> one_line s = true.
Proof. apply all_chars_weaken, digit_not_newline. Qed.

Lemma FormatUint_one_line (n : Z) : one_line (FormatUint n) = true.
Proof. apply digits_one_line, FormatUint_digits. Qed.

Lemma repeat_zero_one_line (n : nat) : one_line (repeat_string "0" n) = true.
Proof. induction n as [|n IH]; simpl; [reflexivity | exact IH]. Qed.

Lemma one_line_app (a b : string) :
  one_line (a ++ b) = one_line a && one_line b.
Proof. apply all_chars_app. Qed.

Lemma fixed_text_one_line (neg : bool) (q : Z) (prec : nat) :
  one_line (fixed_text neg q prec) = true.
Proof.
  unfold fixed_text. rewrite !one_line_app, FormatUint_one_line.
  assert (Hsign : one_line (if neg then "-" else "") = true)
    by (destruct neg; reflexivity).
  rewrite Hsign. cbn [andb].
  destruct prec as [|prec]; [reflexivity|].
  unfold zero_pad.
  rewrite !one_line_app, FormatUint_one_line, repeat_zero_one_line.
  reflexivity.
Qed.

Lemma FormatFloat_one_line (x : float64) (prec : nat) :
  one_line (FormatFloat x prec) = true.
Proof.
  destruct x as [s|[|]| |s m e]; try reflexivity;
    apply fixed_text_one_line.
Qed.

Lemma Itoa_one_line (i : Z) : one_line (Itoa i) = true.
Proof.
  unfold Itoa, NilZero.string_of_int.
  destruct (Z.to_int i) as [d|d].
  - unfold NilZero.string_of_uint.
    destruct d; try reflexivity;
      apply digits_one_line, string_of_uint_digits.
  - change (one_line (String "-" (NilZero.string_of_uint d)))
      with (one_line (NilZero.string_of_uint d)).
    unfold NilZero.string_of_uint.
    destruct d; try reflexivity;
      apply digits_one_line, string_of_uint_digits.
Qed.

(** Reading lines: a text without a line feed, then a line feed, is one
    more line. *)
Lemma lines_from_line (t : string) :
  one_line t = true ->
  forall current rest,
    lines_from current (t ++ newline ++ rest) =
    (current ++ t) :: lines_from "" rest.
Proof.
  induction t as [|c t IH]; intros Ht current rest.
  - simpl. now rewrite append_nil_r.
  - unfold one_line in Ht. cbn [all_chars] in Ht.
    apply andb_prop in Ht. destruct Ht as [Hc Ht].
    cbn [append lines_from].
    unfold not_newline in Hc. apply negb_true_iff in Hc. rewrite Hc.
    rewrite (IH Ht). now rewrite append_assoc.
Qed.

Lemma lines_line (t rest : string) :
  one_line t = true -> lines (t ++ newline ++ rest) = t :: lines rest.
Proof. intros Ht. unfold lines. now rewrite (lines_from_line t Ht). Qed.

Lemma core_text_one_line (index : Z) (p : float64) :
  one_line (ConsoleText.core_text index p) = true.
Proof.
  unfold ConsoleText.core_text.
  rewrite !one_line_app, Itoa_one_line, FormatFloat_one_line.
  reflexivity.
Qed.

Lemma core_line_text (index : Z) (p : float64) :
  Console.core_line index p = ConsoleText.core_text index p ++ newline.
Proof.
  unfold Console.core_line, ConsoleText.core_text.
  now rewrite !append_assoc.
Qed.


(** X1.  The two halves of the per-core list are balanced: the second has
    as many entries as the first when the count is even and one more when
    it is odd, and the first loop has nothing to print exactly when there
    are fewer than two cores. *)
Theorem halves_are_balanced (percentage : list float64) :
  len percentage <= int_max ->
  let n1 := List.length (Console.firstCpus percentage) in
  let n2 := List.length (Console.secondCpus percentage) in
  n2 = (n1 + List.length percentage mod 2)%nat /\
  (n1 <= n2 <= n1 + 1)%nat /\
  (Console.firstCpus percentage = [] <-> (List.length percentage <= 1)%nat).
Proof.
  intros H n1 n2.
  pose proof (firstCpus_length percentage H) as Hfirst.
  pose proof (secondCpus_length percentage H) as Hsecond.
  fold n1 in Hfirst. fold n2 in Hsecond.
  pose proof (Nat.div_mod_eq (List.length percentage) 2) as Hdm.
  pose proof (Nat.mod_upper_bound (List.length percentage) 2 ltac:(lia)) as Hm.
  split; [lia|]. split; [lia|].
  split.
  - intros E. unfold n1 in Hfirst. rewrite E in Hfirst.
    cbn [List.length] in Hfirst. lia.
  - intros Hle. apply length_zero_iff_nil. fold n1. lia.
Qed.

Lemma halves_are_balanced_five :
  len Scenario.five_cores <= int_max /\
  List.length (Console.secondCpus Scenario.five_cores) =
    (List.length (Console.firstCpus Scenario.five_cores) + 1)%nat /\
  Console.firstCpus Scenario.five_cores <> [].
Proof.
  assert (H : len Scenario.five_cores <= int_max) by (vm_compute; discriminate).
  destruct (halves_are_balanced Scenario.five_cores H) as (H1 & _ & H3).
  split; [exact H|]. split; [exact H1|].
  intros E. apply H3 in E. vm_compute in E. lia.
Defined.



(** X3.  The memory section of the console is always three lines and the
    disk section four, whatever the numbers: total and available
    megabytes and the percentage; total, used and free gigabytes and the
    percentage. *)
Theorem memory_and_disk_sections (m : mem.VirtualMemoryStat)
    (d : disk.UsageStat) (w : World) :
  exists memoryText diskText,
    Console.DisplayHostMemory (Some m) w = Returned tt (write memoryText w) /\
    lines memoryText =
      [ "Total memory: " ++ FormatUint (mem.Total m / 1048576) ++ " MB";
        "Free memory: " ++ FormatUint (mem.Available m / 1048576) ++ " MB";
        "Percentage used memory: " ++ FormatFloat (mem.UsedPercent m) 2 ++
        " %" ] /\
    Console.DisplayDiskInformation (Some d) w =
      Returned tt (write diskText w) /\
    lines diskText =
      [ "Total disk space: " ++ FormatUint (disk.Total d / 1073741824) ++ " GB";
        "Used disk space: " ++ FormatUint (disk.Used d / 1073741824) ++ " GB";
        "Free disk space: " ++ FormatUint (disk.Free d / 1073741824) ++ " GB";
        "Percentage disk space usage: " ++
        FormatFloat (disk.UsedPercent d) 2 ++ " %" ].
Proof.
  exists (ConsoleText.memory_lines m), (ConsoleText.disk_lines d).
  split; [apply Console_DisplayHostMemory_run|].
  split.
  { replace (ConsoleText.memory_lines m) with
      (("Total memory: " ++ FormatUint (mem.Total m / 1048576) ++ " MB") ++
       newline ++
       ("Free memory: " ++ FormatUint (mem.Available m / 1048576) ++ " MB") ++
       newline ++
       ("Percentage used memory: " ++ FormatFloat (mem.UsedPercent m) 2 ++
        " %") ++ newline ++ "")
      by (unfold ConsoleText.memory_lines; same_text).
    rewrite !lines_line;
      [reflexivity | | |];
      rewrite !one_line_app, ?FormatUint_one_line, ?FormatFloat_one_line;
      reflexivity. }
  split; [apply Console_DisplayDiskInformation_run|].
  replace (ConsoleText.disk_lines d) with
    (("Total disk space: " ++ FormatUint (disk.Total d / 1073741824) ++ " GB") ++
     newline ++
     ("Used disk space: " ++ FormatUint (disk.Used d / 1073741824) ++ " GB") ++
     newline ++
     ("Free disk space: " ++ FormatUint (disk.Free d / 1073741824) ++ " GB") ++
     newline ++
     ("Percentage disk space usage: " ++ FormatFloat (disk.UsedPercent d) 2 ++
      " %") ++ newline ++ "")
    by (unfold ConsoleText.disk_lines; same_text).
  rewrite !lines_line;
    [reflexivity | | | |];
    rewrite !one_line_app, ?FormatUint_one_line, ?FormatFloat_one_line;
    reflexivity.
Qed.

(* ===================================================================== *)
(** * Further properties: missing and surplus records                    *)
(* ===================================================================== *)

(** X4.  The Display functions of the console take their record through
    a pointer and do not test it: handed nil, each panics before it
    prints anything.  [DisplayCPUStat] takes a list: it prints nothing
    for the empty list and, for any other, the one line of the first
    record, whatever follows it. *)
Theorem console_display_edge_inputs (w : World) :
  Console.DisplayHostInformation None w = Panicked nil_dereference w /\
  Console.DisplayHostMemory None w = Panicked nil_dereference w /\
  Console.DisplayDiskInformation None w = Panicked nil_dereference w /\
  Console.DisplayCPUStat [] w = Returned tt w /\
  (forall first others,
     Console.DisplayCPUStat (first :: others) w =
     Returned tt
       (write ("Model Name: " ++ cpu.ModelName first ++ " Family: " ++
               cpu.Family first ++ " Speed: " ++
               FormatFloat (cpu.Mhz first) 2 ++ " MHz" ++ newline) w)).
Proof.
  split; [reflexivity|]. split; [reflexivity|]. split; [reflexivity|].
  split; [reflexivity|].
  intros first others. rewrite Console_DisplayCPUStat_run.
  unfold ConsoleText.cpu_line. do 2 f_equal; try same_text.
Qed.

(** X5.  Both status bars show the first CPU of the inventory and ignore
    the others; with an empty inventory the CPU cell is rendered around
    the empty text.  The CPU list never makes either [Render] panic. *)
Theorem bars_show_the_first_cpu {R : lipgloss.Renderer} (sb : StatusBar)
    (pkg : Bar.Package) (w : World) :
  let only first :=
    {| cpu := [first]; disk := disk sb; host := host sb; mem := mem sb |} in
  (cpu sb = [] ->
   Bar.DisplayCPUInformation sb w =
   Returned (lipgloss.Style_Render Styles.highlightRightStyle "") w) /\
  (forall first others, cpu sb = first :: others ->
     Bar.DisplayCPUInformation sb w =
       Returned
         (lipgloss.Style_Render Styles.highlightRightStyle
            (cpu.ModelName first ++ " " ++ FormatFloat (cpu.Mhz first) 2 ++
             " MHz")) w /\
     Bar.Render pkg sb w = Bar.Render pkg (only first) w /\
     BarInline.Render sb w = BarInline.Render (only first) w).
Proof.
  intros only. split.
  - intros E. rewrite Bar_DisplayCPUInformation_run.
    unfold BarText.cpuCell. now rewrite E.
  - intros first others E. split; [|split].
    + rewrite Bar_DisplayCPUInformation_run.
      unfold BarText.cpuCell. now rewrite E.
    + rewrite !Bar_Render_run. unfold BarText.layout, BarText.cpuCell,
        BarText.platformCell, BarText.diskCell, only.
      cbn [cpu disk host mem]. now rewrite E.
    + unfold BarInline.Render, only. cbn [cpu disk host mem].
      now rewrite E.
Qed.

Lemma bars_show_the_first_cpu_sample :
  let second :=
    {| cpu.ModelName := "Gen10"; cpu.Family := "6";
       cpu.Mhz := float64_of_Z 2400 |} in
  let sb :=
    {| cpu := [Scenario.gen9; second]; disk := None; host := None;
       mem := None |} in
  cpu sb = [Scenario.gen9; second] /\
  Bar.DisplayCPUInformation (R := Plain.renderer) sb (Scenario.silent 80) =
    Returned "Gen9 3200.00 MHz   " (Scenario.silent 80).
Proof.
  intros second sb.
  destruct (bars_show_the_first_cpu (R := Plain.renderer) sb
              {| Bar.terminalWidth := 80 |} (Scenario.silent 80))
    as [_ Hfirst].
  destruct (Hfirst Scenario.gen9 [second] eq_refl) as (Hcell & _ & _).
  split; [reflexivity|]. rewrite Hcell. reflexivity.
Defined.

(** X6.  The [Render] made of the Display helpers returns for every
    status bar, the empty one included: it prints one text followed by a
    newline and leaves the rest of the world as it was.  So does every
    helper, and so does the whole program on every machine. *)
Theorem helper_render_always_returns {R : lipgloss.Renderer}
    (pkg : Bar.Package) (sb : StatusBar) (width : Z) (w : World) :
  (exists bar, Bar.Render pkg sb w = Returned tt (write (bar ++ newline) w)) /\
  (exists cell, Bar.DisplayPlatformInformation sb w = Returned cell w) /\
  (exists cell, Bar.DisplayHostInformation sb width w = Returned cell w) /\
  (exists cell, Bar.DisplayCPUInformation sb w = Returned cell w) /\
  (exists cell, Bar.DisplayHostMemory sb width w = Returned cell w) /\
  (exists cell, Bar.DisplayDiskInformation sb w = Returned cell w) /\
  (exists bar, Bar.program w = Returned tt (write (bar ++ newline) w)).
Proof.
  split.
  { exists (BarText.layout (Bar.terminalWidth pkg) sb).
    now rewrite Bar_Render_run. }
  split; [rewrite Bar_DisplayPlatformInformation_run; eexists; reflexivity|].
  split; [rewrite Bar_DisplayHostInformation_run; eexists; reflexivity|].
  split; [rewrite Bar_DisplayCPUInformation_run; eexists; reflexivity|].
  split; [rewrite Bar_DisplayHostMemory_run; eexists; reflexivity|].
  split; [rewrite Bar_DisplayDiskInformation_run; eexists; reflexivity|].
  exists (BarText.layout (term_columns w) (snapshot w)).
  now rewrite Bar_program_run.
Qed.

(** When [BarInline.Render] returns. *)
Lemma BarInline_Render_returns_iff {R : lipgloss.Renderer}
    (sb : StatusBar) (w : World) :
  returns (BarInline.Render sb) w <->
  host sb <> None /\ disk sb <> None /\ mem sb <> None.
Proof.
  split.
  - intros (a & w' & E).
    destruct (host sb) as [h|] eqn:Hh;
      [|rewrite BarInline_Render_nil in E by auto; discriminate].
    destruct (disk sb) as [d|] eqn:Hd;
      [|rewrite BarInline_Render_nil in E by auto; discriminate].
    destruct (mem sb) as [m|] eqn:Hm;
      [|rewrite BarInline_Render_nil in E by auto; discriminate].
    repeat split; discriminate.
  - intros (Hh & Hd & Hm).
    destruct (host sb) as [h|] eqn:Eh; [|contradiction].
    destruct (disk sb) as [d|] eqn:Ed; [|contradiction].
    destruct (mem sb) as [m|] eqn:Em; [|contradiction].
    unfold returns.
    rewrite (BarInline_Render_run sb h d m w Eh Ed Em). eauto.
Qed.

(** X7.  The [Render] that builds its cells itself returns exactly when
    the host, disk and memory records are all present; the CPU list has
    no say.  When one is missing it panics with the nil dereference and
    has printed nothing. *)
Theorem inline_render_needs_three_records {R : lipgloss.Renderer}
    (sb : StatusBar) (w : World) :
  (returns (BarInline.Render sb) w <->
   host sb <> None /\ disk sb <> None /\ mem sb <> None) /\
  (host sb = None \/ disk sb = None \/ mem sb = None ->
   BarInline.Render sb w = Panicked nil_dereference w).
Proof.
  split; [apply BarInline_Render_returns_iff | apply BarInline_Render_nil].
Qed.

Lemma inline_render_needs_three_records_sample :
  let sb := snapshot (Scenario.hostless 80) in
  (host sb = None \/ disk sb = None \/ mem sb = None) /\
  BarInline.Render (R := Plain.renderer) sb (Scenario.hostless 80) =
    Panicked nil_dereference (Scenario.hostless 80) /\
  ~ returns (BarInline.Render (R := Plain.renderer) sb) (Scenario.hostless 80).
Proof.
  intros sb.
  destruct (inline_render_needs_three_records (R := Plain.renderer) sb
              (Scenario.hostless 80)) as [Hiff Hpanic].
  assert (H : host sb = None \/ disk sb = None \/ mem sb = None)
    by (left; reflexivity).
  split; [exact H|]. split; [exact (Hpanic H)|].
  intros Hret. apply Hiff in Hret. destruct Hret as [Hh _].
  apply Hh. reflexivity.
Defined.



(* ===================================================================== *)
(** * Further properties: building the status bar                        *)
(* ===================================================================== *)


(* ===================================================================== *)
(** * Further properties: the numbers and widths of the status bar       *)
(* ===================================================================== *)

Lemma megabytes_of_difference (total available : Z) :
  0 <= available <= total ->
  let exact := (total - available) / 1048576 in
  let shown := total / 1048576 - available / 1048576 in
  0 <= available / 1048576 <= total / 1048576 /\
  exact <= shown <= exact + 1.
Proof.
  intros H exact shown. unfold exact, shown.
  pose proof (Z.div_mod total 1048576 ltac:(lia)) as Ht.
  pose proof (Z.mod_pos_bound total 1048576 ltac:(lia)) as Hrt.
  pose proof (Z.div_mod available 1048576 ltac:(lia)) as Ha.
  pose proof (Z.mod_pos_bound available 1048576 ltac:(lia)) as Hra.
  pose proof (Z.div_mod (total - available) 1048576 ltac:(lia)) as Hd.
  pose proof (Z.mod_pos_bound (total - available) 1048576 ltac:(lia)) as Hrd.
  lia.
Qed.

(** X10.  When the provider reports no more available than total bytes,
    the used memory of the status bar does not wrap: it is the total
    megabytes minus the available megabytes, it is at most the total
    shown beside it, and it is the megabytes of the byte difference
    [total - available] or one more, the one coming from truncating the
    two operands separately. *)
Theorem used_memory_accuracy {R : lipgloss.Renderer} (sb : StatusBar)
    (m : mem.VirtualMemoryStat) (width : Z) (w : World) :
  mem sb = Some m ->
  in_uint64 (mem.Total m) ->
  0 <= mem.Available m <= mem.Total m ->
  let total_MB := mem.Total m / 1048576 in
  let available_MB := mem.Available m / 1048576 in
  let exact_MB := (mem.Total m - mem.Available m) / 1048576 in
  exists used_MB,
    used_MB + available_MB = total_MB /\
    0 <= used_MB <= total_MB /\
    exact_MB <= used_MB <= exact_MB + 1 /\
    Bar.DisplayHostMemory sb width w =
      Returned
        (lipgloss.Style_Render
           (Styles.memoryStyle |> lipgloss.Style_Width width)
           ("Memory: " ++ FormatUint used_MB ++ " of " ++ FormatUint total_MB ++
            " MB used (" ++ Sprintf_2_f (mem.UsedPercent m) ++ "%)")) w /\
    (forall h d, host sb = Some h -> disk sb = Some d ->
     exists firstLine memoryWidth diskCell,
       BarInline.Render sb w =
       Returned tt
         (write
            (Sprintln
               [lipgloss.JoinVertical lipgloss.Top
                  [firstLine;
                   lipgloss.JoinHorizontal lipgloss.Top
                     [lipgloss.Style_Render
                        (Styles.memoryStyle |> lipgloss.Style_Width memoryWidth)
                        ("Memory used: " ++ FormatUint used_MB ++ " of " ++
                         FormatUint total_MB ++ " MB (" ++
                         Sprintf_2_f (mem.UsedPercent m) ++ "% used)");
                      diskCell]]]) w)).
Proof.
  intros Hm Ht Ha total_MB available_MB exact_MB.
  destruct (megabytes_of_difference _ _ Ha) as [Hle Hexact].
  fold total_MB available_MB exact_MB in Hle, Hexact.
  pose proof (megabytes_bound _ Ht) as Hbt. fold total_MB in Hbt.
  assert (Hsub : uint64_sub total_MB available_MB = total_MB - available_MB).
  { apply uint64_sub_no_wrap; [|lia].
    unfold in_uint64, uint64_modulus. lia. }
  exists (total_MB - available_MB).
  split; [lia|]. split; [lia|]. split; [lia|]. split.
  - rewrite Bar_DisplayHostMemory_run, Hm. unfold BarText.memoryInformation.
    fold total_MB available_MB. now rewrite Hsub.
  - intros h d Hh Hd.
    destruct (BarInline_Render_memory_text sb h d m w Hh Hd Hm)
      as (l1 & mw & dc & E).
    exists l1, mw, dc. rewrite E. fold total_MB available_MB.
    now rewrite Hsub.
Qed.

Lemma used_memory_accuracy_sample :
  let m := {| mem.Total := 2097152; mem.Available := 1048575;
              mem.Used := 0; mem.UsedPercent := float64_of_Z 50 |} in
  let sb := {| cpu := []; disk := None; host := None; mem := Some m |} in
  (mem sb = Some m /\ in_uint64 (mem.Total m) /\
   0 <= mem.Available m <= mem.Total m) /\
  (mem.Total m - mem.Available m) / 1048576 = 1 /\
  Bar.DisplayHostMemory (R := Plain.renderer) sb 0 (Scenario.silent 80) =
    Returned "Memory: 2 of 2 MB used (50%)  " (Scenario.silent 80).
Proof.
  intros m sb.
  assert (Ht : in_uint64 (mem.Total m)) by (vm_compute; split; congruence).
  assert (Ha : 0 <= mem.Available m <= mem.Total m)
    by (vm_compute; split; congruence).
  destruct (used_memory_accuracy (R := Plain.renderer) sb m 0
              (Scenario.silent 80) eq_refl Ht Ha)
    as (used & Hsum & _ & _ & Hcell & _).
  assert (Hused : used = 2) by (change (used + 0 = 2) in Hsum; lia).
  split; [exact (conj eq_refl (conj Ht Ha))|].
  split; [reflexivity|].
  rewrite Hcell, Hused. reflexivity.
Defined.

(** X11.  In the status bar built from the Display helpers a missing
    record cannot be told from a small reading: a memory record of less
    than one megabyte in total and available, and a disk record of less
    than one gigabyte in total and used, each with a percentage that
    rounds to 0, give the very cells, and the very bar, of a status bar
    without memory and disk records. *)
Theorem missing_record_looks_like_zero {R : lipgloss.Renderer}
    (sb : StatusBar) (m : mem.VirtualMemoryStat) (d : disk.UsageStat)
    (pkg : Bar.Package) (width : Z) (w : World) :
  mem sb = Some m -> disk sb = Some d ->
  0 <= mem.Total m < 1048576 -> 0 <= mem.Available m < 1048576 ->
  FormatFloat (mem.UsedPercent m) 0 = "0" ->
  0 <= disk.Total d < 1073741824 -> 0 <= disk.Used d < 1073741824 ->
  FormatFloat (disk.UsedPercent d) 0 = "0" ->
  let without :=
    {| cpu := cpu sb; disk := None; host := host sb; mem := None |} in
  Bar.DisplayHostMemory sb width w = Bar.DisplayHostMemory without width w /\
  Bar.DisplayDiskInformation sb w = Bar.DisplayDiskInformation without w /\
  Bar.Render pkg sb w = Bar.Render pkg without w.
Proof.
  intros Hm Hd Ht Ha Hp Hdt Hdu Hdp without.
  assert (Hmem : BarText.memoryInformation (mem sb) =
                 BarText.memoryInformation None).
  { rewrite Hm. unfold BarText.memoryInformation, Sprintf_2_f.
    rewrite Hp, !Z.div_small by lia. reflexivity. }
  assert (Hdisk : BarText.diskInformation (disk sb) =
                  BarText.diskInformation None).
  { rewrite Hd. unfold BarText.diskInformation, Sprintf_2_f.
    rewrite Hdp, !Z.div_small by lia. reflexivity. }
  split; [|split].
  - rewrite !Bar_DisplayHostMemory_run. unfold without. cbn [mem].
    now rewrite Hmem.
  - rewrite !Bar_DisplayDiskInformation_run. unfold BarText.diskCell, without.
    cbn [disk]. now rewrite Hdisk.
  - rewrite !Bar_Render_run.
    unfold BarText.layout, BarText.diskCell, BarText.platformCell,
      BarText.cpuCell, without. cbn [cpu disk host mem].
    now rewrite Hmem, Hdisk.
Qed.

Lemma missing_record_looks_like_zero_sample :
  let m := {| mem.Total := 1000000; mem.Available := 500000;
              mem.Used := 500000;
              mem.UsedPercent := float64_of_fraction 3 10 |} in
  let d := {| disk.Total := 1000000000; disk.Free := 999000000;
              disk.Used := 1000000;
              disk.UsedPercent := float64_of_fraction 1 10 |} in
  let sb := {| cpu := []; disk := Some d; host := None; mem := Some m |} in
  (0 <= mem.Total m < 1048576 /\ 0 <= mem.Available m < 1048576 /\
   FormatFloat (mem.UsedPercent m) 0 = "0" /\
   0 <= disk.Total d < 1073741824 /\ 0 <= disk.Used d < 1073741824 /\
   FormatFloat (disk.UsedPercent d) 0 = "0") /\
  Bar.Render (R := Plain.renderer) {| Bar.terminalWidth := 80 |} sb
    (Scenario.silent 80) =
  Bar.Render (R := Plain.renderer) {| Bar.terminalWidth := 80 |}
    NewStatusBar (Scenario.silent 80).
Proof.
  intros m d sb.
  assert (H1 : 0 <= mem.Total m < 1048576) by (vm_compute; split; congruence).
  assert (H2 : 0 <= mem.Available m < 1048576)
    by (vm_compute; split; congruence).
  assert (H3 : FormatFloat (mem.UsedPercent m) 0 = "0") by reflexivity.
  assert (H4 : 0 <= disk.Total d < 1073741824)
    by (vm_compute; split; congruence).
  assert (H5 : 0 <= disk.Used d < 1073741824)
    by (vm_compute; split; congruence).
  assert (H6 : FormatFloat (disk.UsedPercent d) 0 = "0") by reflexivity.
  destruct (missing_record_looks_like_zero (R := Plain.renderer) sb m d
              {| Bar.terminalWidth := 80 |} 0 (Scenario.silent 80)
              eq_refl eq_refl H1 H2 H3 H4 H5 H6) as (_ & _ & Hbar).
  split; [exact (conj H1 (conj H2 (conj H3 (conj H4 (conj H5 H6)))))|].
  exact Hbar.
Defined.

Lemma string_length_app (a b : string) :
  String.length (a ++ b) = (String.length a + String.length b)%nat.
Proof. induction a as [|c a IH]; simpl; [reflexivity | now rewrite IH]. Qed.

(** The plain renderer's horizontal join is as wide as its cells
    together. *)
Lemma Plain_join_three (a b c : string) :
  let width := lipgloss.Width (Renderer := Plain.renderer) in
  width (lipgloss.JoinHorizontal (Renderer := Plain.renderer)
           lipgloss.Top [a; b; c]) =
  width a + width b + width c.
Proof.
  intros width. unfold width.
  cbn [lipgloss.Width lipgloss.JoinHorizontal Plain.renderer String.concat].
  rewrite !string_length_app. cbn [String.length]. lia.
Qed.

Lemma Plain_join_two (a b : string) :
  let width := lipgloss.Width (Renderer := Plain.renderer) in
  width (lipgloss.JoinHorizontal (Renderer := Plain.renderer)
           lipgloss.Top [a; b]) =
  width a + width b.
Proof.
  intros width. unfold width.
  cbn [lipgloss.Width lipgloss.JoinHorizontal Plain.renderer String.concat].
  rewrite !string_length_app. cbn [String.length]. lia.
Qed.

(** X12.  The widths [Render] hands out add up to the terminal: with a
    renderer whose horizontal join is as wide as its cells together and
    which renders the host cell and the memory cell as wide as they are
    told to be, each of the two lines of the bar is exactly
    [terminalWidth] columns wide, whatever the texts of the other cells
    are. *)
Theorem bar_lines_fill_the_terminal {R : lipgloss.Renderer}
    (pkg : Bar.Package) (sb : StatusBar) (w : World) :
  let width := lipgloss.Width in
  let terminalWidth := Bar.terminalWidth pkg in
  let hostWidth :=
    terminalWidth - width (BarText.platformCell sb)
    - width (BarText.cpuCell sb) in
  let memoryWidth := terminalWidth - width (BarText.diskCell sb) in
  (forall a b c,
     width (lipgloss.JoinHorizontal lipgloss.Top [a; b; c]) =
     width a + width b + width c) ->
  (forall a b,
     width (lipgloss.JoinHorizontal lipgloss.Top [a; b]) =
     width a + width b) ->
  in_int (terminalWidth - width (BarText.platformCell sb)) ->
  in_int hostWidth -> in_int memoryWidth ->
  width
    (lipgloss.Style_Render
       (Styles.generalTextStyle |> lipgloss.Style_Width hostWidth
        |> lipgloss.Style_Align lipgloss.Center)
       (BarText.hostInformation (host sb))) = hostWidth ->
  width
    (lipgloss.Style_Render
       (Styles.memoryStyle |> lipgloss.Style_Width memoryWidth)
       (BarText.memoryInformation (mem sb))) = memoryWidth ->
  exists firstLine secondLine,
    Bar.Render pkg sb w =
      Returned tt
        (write
           (Sprintln [lipgloss.JoinVertical lipgloss.Top
                        [firstLine; secondLine]]) w) /\
    width firstLine = terminalWidth /\
    width secondLine = terminalWidth.
Proof.
  intros width terminalWidth hostWidth memoryWidth Hj3 Hj2 H1 H2 H3 Hhost Hmem.
  rewrite Bar_Render_run. unfold BarText.layout.
  fold terminalWidth width.
  assert (Ehost :
    int_sub (int_sub terminalWidth (width (BarText.platformCell sb)))
      (width (BarText.cpuCell sb)) = hostWidth).
  { rewrite (int_sub_exact _ _ H1). now apply int_sub_exact. }
  assert (Emem :
    int_sub terminalWidth (width (BarText.diskCell sb)) = memoryWidth)
    by now apply int_sub_exact.
  rewrite Ehost, Emem.
  eexists _, _. split; [reflexivity|].
  rewrite Hj3, Hj2, Hhost, Hmem. unfold hostWidth, memoryWidth. lia.
Qed.

Lemma bar_lines_fill_the_terminal_sample :
  let sb := snapshot (Scenario.world 53687091200 80) in
  let width := lipgloss.Width (Renderer := Plain.renderer) in
  exists firstLine secondLine,
    output (Bar.Render (R := Plain.renderer) {| Bar.terminalWidth := 80 |} sb)
      (Scenario.silent 80) =
    Some (firstLine ++ newline ++ secondLine ++ newline) /\
    width firstLine = 80 /\ width secondLine = 80.
Proof.
  intros sb width.
  destruct (bar_lines_fill_the_terminal (R := Plain.renderer)
              {| Bar.terminalWidth := 80 |} sb (Scenario.silent 80)
              Plain_join_three Plain_join_two)
    as (l1 & l2 & Hrun & Hw1 & Hw2);
    try (vm_compute; split; congruence); try reflexivity.
  exists l1, l2. split; [|split; assumption].
  unfold output. rewrite Hrun.
  cbn [stdout write Scenario.silent append Sprintln join_spaces
       lipgloss.JoinVertical Plain.renderer String.concat].
  now rewrite !append_assoc.
Defined.

(* ===================================================================== *)
(** * Further properties: the console output as a whole                  *)
(* ===================================================================== *)

Lemma unlines_app (a b : list string) :
  unlines (a ++ b)%list = unlines a ++ unlines b.
Proof.
  induction a as [|x a IH]; simpl; [reflexivity|].
  now rewrite IH, !append_assoc.
Qed.

Lemma lines_unlines (l : list string) :
  forallb one_line l = true -> lines (unlines l) = l.
Proof.
  induction l as [|x l IH]; intros H; [reflexivity|].
  cbn [forallb] in H. apply andb_prop in H. destruct H as [Hx Hl].
  cbn [unlines fold_right]. rewrite lines_line by exact Hx.
  fold (unlines l). now rewrite IH.
Qed.

Lemma core_lines_unlines (values : list float64) :
  forall first,
    ConsoleText.core_lines first values =
    unlines
      (map (fun iv => ConsoleText.core_text (Z.of_nat (fst iv)) (snd iv))
         (combine (seq first (List.length values)) values)).
Proof.
  induction values as [|p values IH]; intros first; [reflexivity|].
  cbn [ConsoleText.core_lines List.length seq combine map fst snd unlines
       fold_right].
  rewrite core_line_text, append_assoc. f_equal. f_equal. apply IH.
Qed.

Lemma core_rows_one_line (values : list float64) :
  forall first,
    forallb one_line
      (map (fun iv => ConsoleText.core_text (Z.of_nat (fst iv)) (snd iv))
         (combine (seq first (List.length values)) values)) = true.
Proof.
  induction values as [|p values IH]; intros first; [reflexivity|].
  cbn [List.length seq combine map fst snd forallb].
  now rewrite core_text_one_line, IH.
Qed.

Lemma host_section_rows (a : answer host.InfoStat) :
  ConsoleText.section_of ConsoleText.host_lines a =
  unlines (ConsoleText.rows_of ConsoleText.host_rows a).
Proof.
  destruct a as [h|e]; [|reflexivity].
  unfold ConsoleText.section_of, ConsoleText.rows_of, ConsoleText.host_lines,
    ConsoleText.host_rows, unlines. same_text.
Qed.

Lemma cpu_section_rows (a : answer (list cpu.InfoStat)) :
  ConsoleText.section_of ConsoleText.cpu_line a =
  unlines (ConsoleText.rows_of ConsoleText.cpu_rows a).
Proof.
  destruct a as [[|c l]|e]; try reflexivity.
  unfold ConsoleText.section_of, ConsoleText.rows_of, ConsoleText.cpu_line,
    ConsoleText.cpu_rows, unlines. same_text.
Qed.

Lemma memory_section_rows (a : answer mem.VirtualMemoryStat) :
  ConsoleText.section_of ConsoleText.memory_lines a =
  unlines (ConsoleText.rows_of ConsoleText.memory_rows a).
Proof.
  destruct a as [m|e]; [|reflexivity].
  unfold ConsoleText.section_of, ConsoleText.rows_of,
    ConsoleText.memory_lines, ConsoleText.memory_rows, unlines. same_text.
Qed.

Lemma disk_section_rows (a : answer disk.UsageStat) :
  ConsoleText.section_of ConsoleText.disk_lines a =
  unlines (ConsoleText.rows_of ConsoleText.disk_rows a).
Proof.
  destruct a as [d|e]; [|reflexivity].
  unfold ConsoleText.section_of, ConsoleText.rows_of, ConsoleText.disk_lines,
    ConsoleText.disk_rows, unlines. same_text.
Qed.

Lemma cores_section_rows (a : answer (list float64)) :
  ConsoleText.section_of ConsoleText.cores_section a =
  unlines (ConsoleText.rows_of ConsoleText.cores_rows a).
Proof.
  destruct a as [p|e]; [|reflexivity].
  unfold ConsoleText.section_of, ConsoleText.rows_of,
    ConsoleText.cores_section, ConsoleText.cores_rows.
  cbn [unlines fold_right]. now rewrite core_lines_unlines.
Qed.

(** X13.  The console output is a sequence of lines, each ended by a
    newline: two for the host, one for the first CPU, three for the
    memory, four for the disk, and the header and one line per core, a
    section being absent when its query failed (and the CPU line when
    the inventory is empty).  Provided the strings of the host record and
    of the first CPU record hold no line feed, reading the output line by
    line gives back exactly these lines. *)
Theorem console_output_is_lines (w : World) :
  len (list_of (cpu_Percent w)) <= int_max ->
  ConsoleText.host_on_one_line (host_Info w) = true ->
  ConsoleText.cpu_on_one_line (cpu_Info w) = true ->
  let rows :=
    (ConsoleText.rows_of ConsoleText.host_rows (host_Info w) ++
     ConsoleText.rows_of ConsoleText.cpu_rows (cpu_Info w) ++
     ConsoleText.rows_of ConsoleText.memory_rows (mem_VirtualMemory w) ++
     ConsoleText.rows_of ConsoleText.disk_rows (disk_Usage w "/") ++
     ConsoleText.rows_of ConsoleText.cores_rows (cpu_Percent w))%list in
  Console.main w = Returned tt (write (unlines rows) w) /\
  lines (unlines rows) = rows.
Proof.
  intros Hlen Hhost Hcpu rows. split.
  - rewrite (Console_main_run w Hlen).
    rewrite host_section_rows, cpu_section_rows, memory_section_rows,
      disk_section_rows, cores_section_rows.
    unfold rows. now rewrite !unlines_app.
  - apply lines_unlines. unfold rows. rewrite !forallb_app.
    assert (H1 : forallb one_line
                   (ConsoleText.rows_of ConsoleText.host_rows (host_Info w))
                 = true).
    { destruct (host_Info w) as [h|e]; [|reflexivity].
      cbn [ConsoleText.host_on_one_line] in Hhost.
      apply andb_prop in Hhost. destruct Hhost as [Hhost H4].
      apply andb_prop in Hhost. destruct Hhost as [Hhost H3].
      apply andb_prop in Hhost. destruct Hhost as [Ha Hb].
      cbn [ConsoleText.rows_of ConsoleText.host_rows forallb].
      rewrite !one_line_app, Ha, Hb, H3, H4. reflexivity. }
    assert (H2 : forallb one_line
                   (ConsoleText.rows_of ConsoleText.cpu_rows (cpu_Info w))
                 = true).
    { destruct (cpu_Info w) as [[|c l]|e]; try reflexivity.
      cbn [ConsoleText.cpu_on_one_line] in Hcpu.
      apply andb_prop in Hcpu. destruct Hcpu as [Ha Hb].
      cbn [ConsoleText.rows_of ConsoleText.cpu_rows forallb].
      rewrite !one_line_app, Ha, Hb, FormatFloat_one_line. reflexivity. }
    assert (H3 : forallb one_line
                   (ConsoleText.rows_of ConsoleText.memory_rows
                      (mem_VirtualMemory w)) = true).
    { destruct (mem_VirtualMemory w) as [m|e]; [|reflexivity].
      cbn [ConsoleText.rows_of ConsoleText.memory_rows forallb].
      rewrite !one_line_app, !FormatUint_one_line, FormatFloat_one_line.
      reflexivity. }
    assert (H4 : forallb one_line
                   (ConsoleText.rows_of ConsoleText.disk_rows
                      (disk_Usage w "/")) = true).
    { destruct (disk_Usage w "/") as [d|e]; [|reflexivity].
      cbn [ConsoleText.rows_of ConsoleText.disk_rows forallb].
      rewrite !one_line_app, !FormatUint_one_line, FormatFloat_one_line.
      reflexivity. }
    assert (H5 : forallb one_line
                   (ConsoleText.rows_of ConsoleText.cores_rows (cpu_Percent w))
                 = true).
    { destruct (cpu_Percent w) as [p|e]; [|reflexivity].
      cbn [ConsoleText.rows_of ConsoleText.cores_rows forallb].
      now rewrite core_rows_one_line. }
    now rewrite H1, H2, H3, H4, H5.
Qed.

Lemma console_output_is_lines_sample :
  let w := Scenario.world 53687091200 80 in
  (len (list_of (cpu_Percent w)) <= int_max /\
   ConsoleText.host_on_one_line (host_Info w) = true /\
   ConsoleText.cpu_on_one_line (cpu_Info w) = true) /\
  exists text,
    output Console.main w = Some text /\
    lines text = Scenario.expected_lines.
Proof.
  intros w.
  assert (H : len (list_of (cpu_Percent w)) <= int_max)
    by (vm_compute; discriminate).
  destruct (console_output_is_lines w H eq_refl eq_refl) as [Hrun Hlines].
  split; [exact (conj H (conj eq_refl eq_refl))|].
  eexists. split.
  - unfold output. rewrite Hrun. reflexivity.
  - cbn [stdout write w Scenario.world append]. rewrite Hlines. reflexivity.
Defined.

Lemma terminal_width_in_render_sample :
  let w := Scenario.world 53687091200 80 in
  (host_Info w = Success Scenario.box1 /\
   disk_Usage w "/" = Success (Scenario.disk100 53687091200) /\
   mem_VirtualMemory w = Success (Scenario.memory 6442450944)) /\
  output (BarInline_run_resized (R := Plain.renderer) 40) w =
    Some (Sprintln
            [BarText.inline_layout (R := Plain.renderer) 40 (snapshot w)
               Scenario.box1 (Scenario.disk100 53687091200)
               (Scenario.memory 6442450944)]) /\
  output (Bar_run_resized (R := Plain.renderer) 40) w =
    Some (Sprintln [BarText.layout (R := Plain.renderer) 80 (snapshot w)]).
Proof.
  intros w.
  destruct (terminal_width_in_render (R := Plain.renderer) 40 w
              Scenario.box1 (Scenario.disk100 53687091200)
              (Scenario.memory 6442450944) eq_refl eq_refl eq_refl)
    as (_ & Hinline & _ & _ & Hbar).
  split; [repeat split|].
  split.
  - unfold output. rewrite Hinline. reflexivity.
  - unfold output. rewrite Hbar. reflexivity.
Defined.
